(** * sailboat: a command-line web browser

    A shallow embedding of [sailboat.py]: the [Browser] class (query
    classification, file and web search, the markup extractor [parse] /
    [_parse] / [_parse_as_plaintext]), the [Display] class (the screen-size
    check, the page window of [draw], the row cursor of [_draw], the scroll
    policy of [_scroll], the command loop of [await_command]) and the
    search loop of [main].

    Conventions.
    - A Python [str] is the [string] of the bytes of its UTF-8 encoding,
      which is also what a string literal of this file denotes.  The
      whitespace of [str.isspace] and [str.strip] is the Unicode one, read
      off the encoded bytes.  [str.lower] is applied for the test of the
      suffix [.html] only and lowers the ASCII letters, the only characters
      that lower to a letter of that suffix.
    - Python [int] values are [Z].
    - [None]-able values are [option]s.
    - A call that may raise returns a [result]; the exception classes that
      the modelled code can raise are listed in [exn]. *)

From Stdlib Require Import ZArith List String Ascii Bool Lia.
Import ListNotations.

Set Warnings "-register-all".

Local Open Scope string_scope.
Local Open Scope Z_scope.

(** ** Exceptions *)

Inductive exn : Type :=
| AttributeError   (* attribute access on [None] *)
| TypeError        (* [str + None], [None[0]], [addstr] of [None] *)
| IndexError       (* [content[0]] / [string[0]] on an empty sequence *)
| CursesError      (* [curses.error]: a write outside the window *)
| OSError          (* [open] / [read] failing on an existing file *)
| ValueError       (* [urlopen] refusing the URL *)
| ParserRejectedMarkup.  (* [BeautifulSoup] refusing the markup *)

Inductive result (A : Type) : Type :=
| Ok (a : A)
| Raise (e : exn).

Arguments Ok {A} a.
Arguments Raise {A} e.

Definition bind {A B : Type} (m : result A) (k : A -> result B) : result B :=
  match m with
  | Ok a => k a
  | Raise e => Raise e
  end.

Notation "x <- m ;; k" := (bind m (fun x => k))
  (at level 61, m at next level, right associativity).

(** ** Python string operations *)

Module PyStr.

Definition LF : ascii := ascii_of_nat 10.

(** The one-character string ["\n"]. *)
Definition newline : string := String LF EmptyString.

(** The whitespace characters of [str.isspace] and [str.strip], by the
    bytes of their UTF-8 encoding.  A byte 133 or 160 on its own is no
    character in UTF-8 but the tail of one (U+00E0 is C3 A0), and is not
    whitespace.

    One byte: TAB, LF, VT, FF, CR (9-13), the separators U+001C-U+001F
    (28-31) and the space (32). *)
Definition space1 (c1 : ascii) : bool :=
  let n := nat_of_ascii c1 in
  ((9 <=? n) && (n <=? 13) || (28 <=? n) && (n <=? 31) || (n =? 32))%nat.

(** Two bytes: U+0085 (C2 85) and U+00A0 (C2 A0). *)
Definition space2 (c1 c2 : ascii) : bool :=
  ((nat_of_ascii c1 =? 194)
   && ((nat_of_ascii c2 =? 133) || (nat_of_ascii c2 =? 160)))%nat.

(** Three bytes: U+1680 (E1 9A 80), U+2000-U+200A (E2 80 80-8A), U+2028,
    U+2029, U+202F (E2 80 A8, A9, AF), U+205F (E2 81 9F) and U+3000
    (E3 80 80). *)
Definition space3 (c1 c2 c3 : ascii) : bool :=
  let n1 := nat_of_ascii c1 in
  let n2 := nat_of_ascii c2 in
  let n3 := nat_of_ascii c3 in
  ((n1 =? 225) && (n2 =? 154) && (n3 =? 128)
   || (n1 =? 226) && (n2 =? 128)
      && ((128 <=? n3) && (n3 <=? 138)
          || (n3 =? 168) || (n3 =? 169) || (n3 =? 175))
   || (n1 =? 226) && (n2 =? 129) && (n3 =? 159)
   || (n1 =? 227) && (n2 =? 128) && (n3 =? 128))%nat.

(** Every character of [s] is whitespace. *)
Fixpoint all_space (s : string) : bool :=
  match s with
  | EmptyString => true
  | String c1 r1 =>
      if space1 c1 then all_space r1
      else
        match r1 with
        | EmptyString => false
        | String c2 r2 =>
            if space2 c1 c2 then all_space r2
            else
              match r2 with
              | EmptyString => false
              | String c3 r3 =>
                  if space3 c1 c2 c3 then all_space r3 else false
              end
        end
  end.

(** [s.isspace()]: at least one character, and all of them whitespace. *)
Definition isspace (s : string) : bool :=
  match s with
  | EmptyString => false
  | String _ _ => all_space s
  end.

(** [s.lstrip()]: the whitespace characters in front are dropped. *)
Fixpoint lstrip (s : string) : string :=
  match s with
  | EmptyString => EmptyString
  | String c1 r1 =>
      if space1 c1 then lstrip r1
      else
        match r1 with
        | EmptyString => s
        | String c2 r2 =>
            if space2 c1 c2 then lstrip r2
            else
              match r2 with
              | EmptyString => s
              | String c3 r3 =>
                  if space3 c1 c2 c3 then lstrip r3 else s
              end
        end
  end.

(** [s.rstrip()]: the string is cut where only whitespace follows. *)
Fixpoint rstrip (s : string) : string :=
  match s with
  | EmptyString => EmptyString
  | String c r => if all_space s then EmptyString else String c (rstrip r)
  end.

(** [s.strip()] *)
Definition strip (s : string) : string := rstrip (lstrip s).

(** [s.split("\n")]: always at least one piece. *)
Fixpoint split_newline (s : string) : list string :=
  match s with
  | EmptyString => [EmptyString]
  | String c r =>
      if Ascii.eqb c LF then EmptyString :: split_newline r
      else match split_newline r with
           | h :: t => String c h :: t
           | [] => [String c EmptyString]
           end
  end.

Definition lower_char (c : ascii) : ascii :=
  let n := nat_of_ascii c in
  if ((65 <=? n) && (n <=? 90))%nat then ascii_of_nat (n + 32) else c.

(** [s.lower()] *)
Fixpoint lower (s : string) : string :=
  match s with
  | EmptyString => EmptyString
  | String c r => String (lower_char c) (lower r)
  end.

Definition len (s : string) : Z := Z.of_nat (String.length s).

(** [s.endswith(suffix)]: some tail of [s] is [suffix]. *)
Fixpoint endswith (s suffix : string) : bool :=
  String.eqb s suffix ||
  match s with
  | EmptyString => false
  | String _ r => endswith r suffix
  end.

(** [sub in s] *)
Fixpoint contains (sub s : string) : bool :=
  String.prefix sub s ||
  match s with
  | EmptyString => false
  | String _ r => contains sub r
  end.

(** [bool(s)]: a string is truthy when it is not empty. *)
Definition truthy (s : string) : bool :=
  match s with
  | EmptyString => false
  | String _ _ => true
  end.

(** [x in xs] for a list of strings. *)
Definition mem (x : string) (xs : list string) : bool :=
  existsb (String.eqb x) xs.

End PyStr.

(** ** Python sequence slicing *)

Module PySeq.

(** Clamping of a slice bound against a sequence of length [n]: a negative
    bound counts from the end, and every bound is cut to [0..n]. *)
Definition clamp (n i : Z) : Z :=
  if i <? 0 then Z.max 0 (i + n) else Z.min i n.

(** [l[a:b]] *)
Definition slice {A : Type} (l : list A) (a b : Z) : list A :=
  let n := Z.of_nat (List.length l) in
  let lo := clamp n a in
  let hi := clamp n b in
  firstn (Z.to_nat (hi - lo)) (skipn (Z.to_nat lo) l).

(** [l[1:]] *)
Definition from1 {A : Type} (l : list A) : list A := List.tl l.

End PySeq.

(** ** The document tree handed over by BeautifulSoup *)

(** [bs4.element]: a page element is a string node of one of the string
    classes, or a [Tag] with a name, an attribute dictionary and its
    contents in document order.  [Doctype] stands for every
    [NavigableString] subclass other than [Comment] and [CData]
    (declarations, processing instructions, ...). *)
Inductive PageElement : Type :=
| NavigableString (s : string)
| Comment (s : string)
| CData (s : string)
| Doctype (s : string)
| Tag (name : string) (attrs : list (string * string))
      (contents : list PageElement).

Module Soup.

(** [tag.get(key)]: the attribute's value, or [None]. *)
Fixpoint get (attrs : list (string * string)) (key : string)
  : option string :=
  match attrs with
  | [] => None
  | (k, v) :: r => if String.eqb k key then Some v else get r key
  end.

(** [tag.find(name)], which is what the attribute access [tag.name]
    performs: the first descendant tag of that name in document order
    (a node before its own descendants, those before its siblings). *)
Fixpoint find (nm : string) (e : PageElement) : option PageElement :=
  match e with
  | Tag _ _ cs =>
      (fix first (l : list PageElement) : option PageElement :=
         match l with
         | [] => None
         | c :: r =>
             match c with
             | Tag n _ _ =>
                 if String.eqb n nm then Some c
                 else match find nm c with
                      | Some x => Some x
                      | None => first r
                      end
             | _ => first r
             end
         end) cs
  | _ => None
  end.

(** The strings [get_text] joins: every descendant whose class is exactly
    [NavigableString] or [CData]. *)
Fixpoint _all_strings (e : PageElement) : list string :=
  match e with
  | NavigableString s => [s]
  | CData s => [s]
  | Comment _ => []
  | Doctype _ => []
  | Tag _ _ cs => flat_map _all_strings cs
  end.

(** [soup.get_text()] *)
Definition get_text (e : PageElement) : string :=
  String.concat EmptyString (_all_strings e).

(** [soup.head.title] when it is a tag: the document's title. *)
Definition head_title (soup : PageElement) : option PageElement :=
  match find "head" soup with
  | Some head => find "title" head
  | None => None
  end.

(** [tag.string]: defined when the tag has exactly one child, which is a
    string node or, recursively, a tag with a [string]. *)
Fixpoint string (e : PageElement) : option string :=
  match e with
  | NavigableString s => Some s
  | Comment s => Some s
  | CData s => Some s
  | Doctype s => Some s
  | Tag _ _ cs =>
      match cs with
      | [c] => string c
      | _ => None
      end
  end.

End Soup.

(** ** class WebsiteContent *)

Record WebsiteContent : Type := mkWebsiteContent {
  html : string;
  success : bool;
  errmsg : string
}.

(** ** class Browser: the intermediary format *)

Inductive HTMLMarkup : Type :=
| HTMLMarkupLink (href : option string) (text : option string)
                 (nestedObjects : option (list HTMLMarkup))
| HTMLMarkupImage (src : option string) (alt : option string)
| HTMLMarkupText (text : string) (emphasized underlined : bool)
| HTMLMarkupError (errmsg : string)
| HTMLMarkupTitle (title : option string).

(** The class attribute [name] of each markup class.  [draw] and [_draw]
    branch on it; below they match on the constructor, which fixes it. *)
Definition markup_name (m : HTMLMarkup) : string :=
  match m with
  | HTMLMarkupLink _ _ _ => "link"
  | HTMLMarkupImage _ _ => "image"
  | HTMLMarkupText _ _ _ => "text"
  | HTMLMarkupError _ => "error"
  | HTMLMarkupTitle _ => "title"
  end.

(** ** Browser._parse *)

Definition skipped_names : list string :=
  ["style"; "script"; "head"; "title"; "meta"; "[document]"].

Fixpoint _parse (element : PageElement) : list HTMLMarkup :=
  match element with
  | Comment _ => []
  | NavigableString s | CData s | Doctype s =>
      if PyStr.isspace s then [] else [HTMLMarkupText s false false]
  | Tag name attrs contents =>
      if PyStr.mem name skipped_names then []
      else if String.eqb name "img" then
        [HTMLMarkupImage (Soup.get attrs "src") (Soup.get attrs "alt")]
      else if String.eqb name "br" then
        [HTMLMarkupText PyStr.newline false false]
      else if String.eqb name "a" then
        let href := Soup.get attrs "href" in
        (* a Tag always has the attribute [children], so the initial
           [text = element.string] is overwritten or unused *)
        match contents with
        | [] => []                                   (* StopIteration *)
        | NavigableString s :: _ =>
            (* text = child *)
            if PyStr.isspace s then []
            else [HTMLMarkupLink href (Some s) None]
        | _ :: _ =>
            [HTMLMarkupLink href None (Some (flat_map _parse contents))]
        end
      else flat_map _parse contents
  end.

(** ** Browser._parse_as_plaintext *)

Definition _parse_as_plaintext (text : string) : list HTMLMarkup :=
  map (fun line => HTMLMarkupText (PyStr.strip line) false false)
      (filter PyStr.truthy (PyStr.split_newline text)).

(** ** Browser.parse *)

Section Parse.

(** [BeautifulSoup(markup, "html.parser")]: the tree builder is a
    collaborator of the extractor. *)
Variable BeautifulSoup : string -> PageElement.

(** The node that [soup.body] denotes when line 97 is reached, or the
    early return of lines 84-95. *)
Definition body_or_return (soup : PageElement)
  : PageElement + list HTMLMarkup :=
  match Soup.find "body" soup with
  | Some b => inl b
  | None =>
      let text := Soup.get_text soup in
      if negb (PyStr.len text =? 0) then
        match Soup.find "html" soup with
        | Some h => inl h                    (* soup.body = soup.html *)
        | None => inr (_parse_as_plaintext text)
        end
      else inr [HTMLMarkupError "Empty Page"]
  end.

Definition parse (content : WebsiteContent) : result (list HTMLMarkup) :=
  if negb (success content) then Ok [HTMLMarkupError (errmsg content)]
  else
    let soup := BeautifulSoup (html content) in
    match body_or_return soup with
    | inr early => Ok early
    | inl body =>
        let parsedContent := _parse body in
        match Soup.find "head" soup with
        | None => Raise AttributeError        (* soup.head is None *)
        | Some head =>
            let parsedContent :=
              match Soup.find "title" head with
              | Some t => HTMLMarkupTitle (Soup.string t) :: parsedContent
              | None => parsedContent
              end in
            if Z.of_nat (List.length parsedContent) =? 0
            then Ok [HTMLMarkupError "Empty Page"]
            else Ok parsedContent
        end
    end.

End Parse.

(** Line 82 with a tree builder that may refuse the markup: what
    [BeautifulSoup] raises leaves [parse] as it is; once it has returned
    the tree, [parse] goes on as above. *)
Definition parse_from_markup (BeautifulSoup : string -> result PageElement)
           (content : WebsiteContent) : result (list HTMLMarkup) :=
  if negb (success content) then Ok [HTMLMarkupError (errmsg content)]
  else
    soup <- BeautifulSoup (html content) ;;
    parse (fun _ => soup) content.

(** ** Browser.search *)

(** What [urllib.request.urlopen(req).read().decode("utf-8")] does: it
    returns the page, or raises one of the three classes [_web_search]
    catches (with its [str(err)]), or raises something else. *)
Inductive fetch_outcome : Type :=
| Fetched (page : string)
| FetchFailed (err : string)
| FetchRaised (e : exn).

Section Search.

(** The file system and the network, as [search] sees them. *)
Variable os_path_exists : string -> bool.
Variable os_path_isfile : string -> bool.
Variable read_file : string -> result string.
Variable urlopen : string -> fetch_outcome.

Definition _is_path (s : string) : result bool :=
  match s with
  | EmptyString => Raise IndexError                     (* string[0] *)
  | String c _ =>
      Ok (Ascii.eqb c "~" || Ascii.eqb c "/" || Ascii.eqb c "."
          || os_path_exists s)
  end.

Definition _file_search (path : string) : result WebsiteContent :=
  if negb (os_path_exists path)
     || negb (os_path_isfile path)
     || negb (PyStr.endswith (PyStr.lower path) ".html")
  then Ok (mkWebsiteContent "" false
             ("'" ++ path ++ "' is not a valid path to an HTML file."))
  else
    text <- read_file path ;;
    Ok (mkWebsiteContent text true "").

Definition _web_search (url : string) : result WebsiteContent :=
  match urlopen url with
  | Fetched page => Ok (mkWebsiteContent page true "")
  | FetchFailed err => Ok (mkWebsiteContent "" false err)
  | FetchRaised e => Raise e
  end.

Definition search (query : string) : result WebsiteContent :=
  is_path <- _is_path query ;;
  if (is_path : bool) then _file_search query
  else
    let query := if negb (PyStr.contains "://" query)
                 then "http://" ++ query else query in
    _web_search query.

End Search.

(** ** class Display *)

(** The size limits of [_check_screen_size]. *)
Definition min_dims : Z * Z := (3 + 3 + 1, 30).

Section Display.

(** The curses window is a collaborator: its state is abstract.
    [addstr win pos s attr] is [win.addstr(y, x, s, attr)] when [pos] is
    [Some (y, x)] and [win.addstr(s, attr)] (at the cursor) when it is
    [None]; the flag tells whether the call returned normally ([true]) or
    raised [curses.error] ([false]).  [focus] is [_focus_content_win]
    (erase, border, colours).  [wrap] is [textwrap.wrap]. *)
Variable window : Type.
Variable getmaxyx : window -> Z * Z.
Variable addstr :
  window -> option (Z * Z) -> string -> list string -> window * bool.
Variable focus : window -> window.
Variable wrap : string -> Z -> list string.

Record Display : Type := mkDisplay {
  content_win : window;
  _current_content : option (list HTMLMarkup);
  _top : Z;
  _bottom : Z;
  _max_lines : Z;
  _current_line : Z
}.

(** *** Display._reset_page_coordinates *)
Definition _reset_page_coordinates (d : Display) : Display :=
  let top := 0 in
  let bottom := fst (getmaxyx (content_win d)) in
  mkDisplay (content_win d) (_current_content d)
            top bottom (bottom - 2) top.

(** *** Display.get_search_query, as far as the display state goes *)
Definition get_search_query (d : Display) : Display :=
  _reset_page_coordinates d.

(** *** Writes *)

(** A window computation: it always leaves a window behind, and either
    returns or raises. *)
Definition W (A : Type) : Type := window -> window * result A.

Definition ret {A : Type} (a : A) : W A := fun win => (win, Ok a).

Definition throw {A : Type} (e : exn) : W A := fun win => (win, Raise e).

Definition wbind {A B : Type} (m : W A) (k : A -> W B) : W B :=
  fun win =>
    match m win with
    | (win', Ok a) => k a win'
    | (win', Raise e) => (win', Raise e)
    end.

Notation "x <~ m ;; k" := (wbind m (fun x => k))
  (at level 61, m at next level, right associativity).

(** An integer operand that may be [None]. *)
Definition int_of (row : option Z) : W Z :=
  match row with
  | Some r => ret r
  | None => throw TypeError
  end.

(** A string operand that may be [None]. *)
Definition str_of (s : option string) : W string :=
  match s with
  | Some t => ret t
  | None => throw TypeError
  end.

Definition win_addstr (pos : option (Z * Z)) (s : string)
           (attr : list string) : W unit :=
  fun win =>
    let (win', ok) := addstr win pos s attr in
    (win', if ok then Ok tt else Raise CursesError).

(** *** Display._draw *)

(** The loop over the wrapped lines of a text element. *)
Fixpoint _draw_lines (max_lines : Z) (lines : list string)
         (row : option Z) (color : string) : W (option Z) :=
  match lines with
  | [] => ret row
  | line :: rest =>
      r <~ int_of row ;;
      if r >=? max_lines then ret row                        (* break *)
      else
        _ <~ win_addstr (Some (r, 1)) line [color] ;;
        _draw_lines max_lines rest (Some (r + 1)) color
  end.

(** The row cursor is [None] after an element of a class [_draw] has no
    branch for ([title], [error]): the function then falls off its end. *)
Fixpoint _draw (d : Display) (row : option Z) (element : HTMLMarkup)
         (isLink : bool) : W (option Z) :=
  let w := snd (getmaxyx (content_win d)) in
  match element with
  | HTMLMarkupText text _ _ =>
      let color := if isLink then "link" else "default" in
      if String.eqb text PyStr.newline then
        r <~ int_of row ;; ret (Some (r + 1))
      else
        _draw_lines (_max_lines d) (wrap text (w - 2)) row color
  | HTMLMarkupImage src alt =>
      let color := if isLink then "link" else "image" in
      let text := match alt with Some a => Some a | None => src end in
      r <~ int_of row ;;
      _ <~ win_addstr (Some (r, 1)) "[IMAGE]" [color; "A_STANDOUT"] ;;
      t <~ str_of text ;;
      _ <~ win_addstr None (": " ++ t) [color] ;;
      ret (Some (r + 1))
  | HTMLMarkupLink href text nestedObjects =>
      let color := "link" in
      let text := match text with Some t => Some t | None => href end in
      t <~ str_of text ;;
      r <~ int_of row ;;
      _ <~ win_addstr (Some (r, 1)) (" " ++ t) [color] ;;
      let row := r + 1 in
      match nestedObjects with
      | None => ret (Some row)
      | Some nested =>
          (fix each (l : list HTMLMarkup) (row : Z) : W (option Z) :=
             match l with
             | [] => ret (Some row)
             | nestedElement :: rest =>
                 row' <~ _draw d (Some row) nestedElement true ;;
                 r' <~ int_of row' ;;
                 each rest (r' + 1)
             end) nested row
      end
  | HTMLMarkupError _ => ret None
  | HTMLMarkupTitle _ => ret None
  end.

(** *** Display.draw *)

(** Line 259: the elements handed to [_draw]. *)
Definition page (d : Display) (content : list HTMLMarkup)
  : list HTMLMarkup :=
  PySeq.slice (PySeq.from1 content)
              (_current_line d) (_current_line d + _max_lines d).

(** Lines 261-263: a [curses.error] skips the element and keeps the row. *)
Fixpoint _draw_page (d : Display) (row : option Z)
         (elements : list HTMLMarkup) : W unit :=
  match elements with
  | [] => ret tt
  | element :: rest =>
      fun win =>
        match _draw d row element false win with
        | (win', Ok row') => _draw_page d row' rest win'
        | (win', Raise CursesError) => _draw_page d row rest win'
        | (win', Raise e) => (win', Raise e)
        end
  end.

Definition _draw_content (d : Display) (content : list HTMLMarkup)
  : W unit :=
  match content with
  | [] => throw IndexError                              (* content[0] *)
  | first :: _ =>
      match first with
      | HTMLMarkupError errmsg =>
          _ <~ win_addstr (Some (0, 1)) "Error" [] ;;
          win_addstr (Some (1, 1)) errmsg []
      | _ =>
          _ <~ match first with
               | HTMLMarkupTitle title =>
                   t <~ str_of title ;;
                   win_addstr (Some (0, 1)) t ["A_BOLD"; "A_UNDERLINE"]
               | _ => ret tt
               end ;;
          _draw_page d (Some 1) (page d content)
      end
  end.

Definition set_content (d : Display) (win : window)
           (content : option (list HTMLMarkup)) : Display :=
  mkDisplay win content (_top d) (_bottom d) (_max_lines d)
            (_current_line d).

(** [draw(content)]; [content] is [None] when [_scroll] redraws a display
    that never drew anything. *)
Definition draw (d : Display) (content : option (list HTMLMarkup))
  : Display * result unit :=
  let d := set_content d (focus (content_win d)) content in
  match content with
  | None => (d, Raise TypeError)                        (* None[0] *)
  | Some c =>
      let (win, r) := _draw_content d c (content_win d) in
      (set_content d win content, r)
  end.

(** *** Display._scroll *)

Definition UP : Z := -1.
Definition DOWN : Z := 1.

(** Lines 412-421: the new page coordinates. *)
Definition _scroll_coordinates (d : Display) (direction : Z) : Display :=
  let next_line := _current_line d + direction in
  if (next_line <? _bottom d) && (_top d + next_line <? _bottom d) then
    mkDisplay (content_win d) (_current_content d)
              (_top d) (_bottom d) (_max_lines d) next_line
  else if (next_line =? _bottom d)
          && (_top d + _max_lines d <? _bottom d) then
    mkDisplay (content_win d) (_current_content d)
              (_top d + 1) (_bottom d) (_max_lines d) (_current_line d)
  else d.

Definition _scroll (d : Display) (direction : Z) : Display * result unit :=
  let d := _scroll_coordinates d direction in
  draw d (_current_content d).

(** The display after a run of scroll commands, whatever the redraws
    return. *)
Definition scrolls (d : Display) (directions : list Z) : Display :=
  fold_left (fun d direction => fst (_scroll d direction)) directions d.

(** *** Display.__init__, as far as the display state goes *)

(** [content_win] is the window [curses.newwin] returns for the content
    area; [None] is the [exit(1)] of [_check_screen_size]. *)
Definition Display_init (LINES COLS : Z) (content_win : window)
  : option Display :=
  if (LINES <? fst min_dims) || (COLS <? snd min_dims) then None
  else Some (_reset_page_coordinates
               (mkDisplay content_win None 0 0 0 0)).

End Display.

Arguments content_win {window} d.
Arguments _current_content {window} d.
Arguments _top {window} d.
Arguments _bottom {window} d.
Arguments _max_lines {window} d.
Arguments _current_line {window} d.
Arguments _reset_page_coordinates {window} getmaxyx d.
Arguments page {window} d content.
Arguments draw {window} getmaxyx addstr focus wrap d content.
Arguments _scroll_coordinates {window} d direction.
Arguments _scroll {window} getmaxyx addstr focus wrap d direction.
Arguments scrolls {window} getmaxyx addstr focus wrap d directions.
Arguments Display_init {window} getmaxyx LINES COLS content_win.

(** ** Auxiliary definitions for the statements *)

(** A [title] element occurs in [m], at the top or inside a compound
    link. *)
Fixpoint has_title (m : HTMLMarkup) : bool :=
  match m with
  | HTMLMarkupTitle _ => true
  | HTMLMarkupLink _ _ (Some nested) => existsb has_title nested
  | _ => false
  end.

(** Structural induction on a document tree, with the property available
    for every child of a tag. *)
Fixpoint PageElement_tree_ind (P : PageElement -> Prop)
    (Hnav : forall s, P (NavigableString s))
    (Hcom : forall s, P (Comment s))
    (Hcda : forall s, P (CData s))
    (Hdoc : forall s, P (Doctype s))
    (Htag : forall n a cs, Forall P cs -> P (Tag n a cs))
    (e : PageElement) : P e :=
  match e with
  | NavigableString s => Hnav s
  | Comment s => Hcom s
  | CData s => Hcda s
  | Doctype s => Hdoc s
  | Tag n a cs =>
      Htag n a cs
        ((fix all (l : list PageElement) : Forall P l :=
            match l with
            | [] => Forall_nil P
            | c :: r =>
                Forall_cons c
                  (PageElement_tree_ind P Hnav Hcom Hcda Hdoc Htag c)
                  (all r)
            end) cs)
  end.

(** A concrete window for running the display: it records the writes since
    the last erase.  A positioned write outside the rows of the window
    raises; text is short enough for [textwrap.wrap] to keep it on one
    line. *)
Module Screen.

Record write : Type := mkWrite {
  at_yx : option (Z * Z);
  str : string;
  attr : list string
}.

Record t : Type := mkScreen {
  maxyx : Z * Z;
  writes : list write
}.

Definition newwin (h w : Z) : t := mkScreen (h, w) [].

Definition addstr (win : t) (pos : option (Z * Z)) (s : string)
           (a : list string) : t * bool :=
  let inside :=
    match pos with
    | Some (y, _) => (0 <=? y) && (y <? fst (maxyx win))
    | None => true
    end in
  if inside then (mkScreen (maxyx win) (writes win ++ [mkWrite pos s a]),
                  true)
  else (win, false).

Definition focus (win : t) : t := mkScreen (maxyx win) [].

Definition wrap (s : string) (width : Z) : list string :=
  if PyStr.all_space s then [] else [s].

Definition Display : Type := Display t.

Definition init (LINES COLS : Z) : option Display :=
  Display_init maxyx LINES COLS (newwin (LINES - 3 - 1) COLS).

Definition draw : Display -> option (list HTMLMarkup)
                  -> Display * result unit :=
  draw maxyx addstr focus wrap.

Definition _scroll : Display -> Z -> Display * result unit :=
  _scroll maxyx addstr focus wrap.

(** The display of an 80x24 terminal after [__init__]. *)
Definition fresh : Display :=
  _reset_page_coordinates maxyx
    (mkDisplay t (newwin (24 - 3 - 1) 80) None 0 0 0 0).

(** The display after drawing [content] on the fresh one. *)
Definition showing (content : list HTMLMarkup) : Display :=
  fst (draw fresh (Some content)).

(** A page without a title. *)
Definition untitled_page : list HTMLMarkup :=
  [HTMLMarkupText "Hi" false false].

(** A page whose body is a single row. *)
Definition short_page : list HTMLMarkup :=
  [HTMLMarkupTitle (Some "T"); HTMLMarkupText "Hi" false false].

End Screen.

(** Document trees as [html.parser] builds them. *)
Module Docs.

Definition document (contents : list PageElement) : PageElement :=
  Tag "[document]" [] contents.

(** [<html><body><h1>Hi</h1></body></html>] *)
Definition html_no_head : string :=
  "<html><body><h1>Hi</h1></body></html>".
Definition no_head : PageElement :=
  document
    [Tag "html" []
       [Tag "body" [] [Tag "h1" [] [NavigableString "Hi"]]]].

(** A file holding a single line break. *)
Definition html_newline : string := PyStr.newline.
Definition only_newline : PageElement :=
  document [NavigableString PyStr.newline].

(** [<head><title>T</title></head>] *)
Definition html_bare_head : string := "<head><title>T</title></head>".
Definition bare_head : PageElement :=
  document [Tag "head" [] [Tag "title" [] [NavigableString "T"]]].

(** [<html><head><title>T</title></head><body><p>Hi</p></body></html>] *)
Definition html_titled : string :=
  "<html><head><title>T</title></head><body><p>Hi</p></body></html>".
Definition titled : PageElement :=
  document
    [Tag "html" []
       [Tag "head" [] [Tag "title" [] [NavigableString "T"]];
        Tag "body" [] [Tag "p" [] [NavigableString "Hi"]]]].

(** [<html><head></head><body>Hi</body></html>] *)
Definition html_untitled : string :=
  "<html><head></head><body>Hi</body></html>".
Definition untitled : PageElement :=
  document
    [Tag "html" []
       [Tag "head" [] [];
        Tag "body" [] [NavigableString "Hi"]]].

(** The tree builder restricted to the documents above. *)
Definition BeautifulSoup (markup : string) : PageElement :=
  if String.eqb markup html_no_head then no_head
  else if String.eqb markup html_newline then only_newline
  else if String.eqb markup html_bare_head then bare_head
  else if String.eqb markup html_titled then titled
  else if String.eqb markup html_untitled then untitled
  else document [].

End Docs.

(** A small file system and an unreachable network. *)
Module Disk.

Definition page_html : string := "/home/page.html".
Definition page_htm : string := "/home/page.htm".

Definition os_path_exists (path : string) : bool :=
  String.eqb path page_html || String.eqb path page_htm.

Definition os_path_isfile (path : string) : bool :=
  String.eqb path page_html || String.eqb path page_htm.

Definition read_file (path : string) : result string :=
  if os_path_isfile path then Ok "<p>Hi</p>" else Raise OSError.

Definition urlopen (url : string) : fetch_outcome :=
  FetchFailed "<urlopen error offline>".

Definition search : string -> result WebsiteContent :=
  search os_path_exists os_path_isfile read_file urlopen.

End Disk.

(** ** Display.await_command, process and the loop of main *)

(** The key codes [await_command] compares with: [ord] of the letters and
    the values curses gives its arrow keys. *)
Definition ord_q : Z := 113.
Definition ord_s : Z := 115.
Definition ord_d : Z := 100.
Definition KEY_DOWN : Z := 258.
Definition KEY_UP : Z := 259.

(** The list [commands] of [await_command]. *)
Definition commands : list Z := [ord_q; ord_s; KEY_DOWN; KEY_UP].

(** [key in commands] *)
Definition is_command (key : Z) : bool := existsb (Z.eqb key) commands.

Section Commands.

Variable window : Type.
Variable getmaxyx : window -> Z * Z.
Variable addstr :
  window -> option (Z * Z) -> string -> list string -> window * bool.
Variable focus : window -> window.
Variable wrap : string -> Z -> list string.

(** What [_focus_search_win] does to the content window (erase, border,
    refresh). *)
Variable unfocus : window -> window.

Variable BeautifulSoup : string -> PageElement.
Variable os_path_exists : string -> bool.
Variable os_path_isfile : string -> bool.
Variable read_file : string -> result string.
Variable urlopen : string -> fetch_outcome.

Definition _focus_search_win (d : Display window) : Display window :=
  set_content window d (unfocus (content_win d)) (_current_content d).

(** [await_command] reads keys with [getch] until one is a command.  The
    keys still to come are a list; [Ok None] is a call left waiting in
    [getch] when the list is used up.  A call that returns gives
    [finished], the display and the keys not yet read.  After a scroll the
    function calls itself and drops what that call returns. *)
Fixpoint await_command (keys : list Z) (d : Display window)
  : result (option (bool * Display window * list Z)) :=
  match keys with
  | [] => Ok None
  | key :: rest =>
      (* self._scroll(direction); self.await_command() *)
      let scroll_and_wait := fun direction : Z =>
        let (d', r) := _scroll getmaxyx addstr focus wrap d direction in
        _ <- r ;;
        inner <- await_command rest d' ;;
        match inner with
        | None => Ok None
        | Some (_, d'', rest') => Ok (Some (false, d'', rest'))
        end in
      if negb (is_command key) then await_command rest d
      else if key =? ord_q then Ok (Some (true, d, rest))
      else if key =? ord_s then Ok (Some (false, _focus_search_win d, rest))
      else if key =? ord_d then Ok (Some (false, d, rest))
      else if key =? KEY_DOWN then scroll_and_wait DOWN
      else if key =? KEY_UP then scroll_and_wait UP
      else Ok (Some (false, d, rest))
  end.

(** [process(query)] of [main]. *)
Definition process (query : string) (keys : list Z) (d : Display window)
  : result (option (bool * Display window * list Z)) :=
  content <- search os_path_exists os_path_isfile read_file urlopen query ;;
  parsedContent <- parse BeautifulSoup content ;;
  let (d', r) := draw getmaxyx addstr focus wrap d (Some parsedContent) in
  _ <- r ;;
  await_command keys d'.

(** The [while not finished] loop of [main]: [typed] holds what the search
    box returns at each prompt, before [strip].  [Ok (Some d)] is the loop
    left with [finished] set; [Ok None] is the program waiting for input
    that does not come. *)
Fixpoint main_loop (typed : list string) (keys : list Z)
         (d : Display window) : result (option (Display window)) :=
  match typed with
  | [] => Ok None
  | text :: later =>
      let d := get_search_query window getmaxyx d in
      let query := PyStr.strip text in
      if String.eqb query "" then main_loop later keys d
      else
        r <- process query keys d ;;
        match r with
        | None => Ok None
        | Some (finished, d', keys') =>
            if (finished : bool) then Ok (Some d')
            else main_loop later keys' d'
        end
  end.

End Commands.

Arguments _focus_search_win {window} unfocus d.
Arguments await_command {window} getmaxyx addstr focus wrap unfocus keys d.

(** ** Further definitions for the statements *)

(** [P] holds of [m] and of every element nested in it. *)
Fixpoint deep_all (P : HTMLMarkup -> bool) (m : HTMLMarkup) : bool :=
  P m &&
  match m with
  | HTMLMarkupLink _ _ (Some nested) => forallb (deep_all P) nested
  | _ => true
  end.

(** The element is of one of the three classes of body content. *)
Definition body_class (m : HTMLMarkup) : bool :=
  match m with
  | HTMLMarkupLink _ _ _ | HTMLMarkupImage _ _ | HTMLMarkupText _ _ _ => true
  | HTMLMarkupError _ | HTMLMarkupTitle _ => false
  end.

(** A string is empty or has a character that is not whitespace: the
    strings for which [str.isspace] is false. *)
Definition empty_or_inked (t : string) : bool :=
  String.eqb t EmptyString || negb (PyStr.all_space t).

(** A text element is the line-break sentinel, or is empty, or has a
    character that is not whitespace; so is the text of a link. *)
Definition visible_text (m : HTMLMarkup) : bool :=
  match m with
  | HTMLMarkupText t _ _ => String.eqb t PyStr.newline || empty_or_inked t
  | HTMLMarkupLink _ (Some t) _ => empty_or_inked t
  | _ => true
  end.

(** A link carries a text or nested objects, never both and never
    neither. *)
Definition link_shape (m : HTMLMarkup) : bool :=
  match m with
  | HTMLMarkupLink _ (Some _) None => true
  | HTMLMarkupLink _ None (Some _) => true
  | HTMLMarkupLink _ _ _ => false
  | _ => true
  end.

Definition is_error (m : HTMLMarkup) : bool :=
  match m with
  | HTMLMarkupError _ => true
  | _ => false
  end.

(** The three tests of [_file_search] together. *)
Definition valid_path (os_path_exists os_path_isfile : string -> bool)
           (path : string) : bool :=
  os_path_exists path && os_path_isfile path
  && PyStr.endswith (PyStr.lower path) ".html".

(** The URL [search] hands to [_web_search]. *)
Definition url_of (query : string) : string :=
  if PyStr.contains "://" query then query else "http://" ++ query.

(** The message of the failure content of [_file_search]. *)
Definition invalid_path_message (path : string) : string :=
  "'" ++ path ++ "' is not a valid path to an HTML file.".

(** Every character of [s] is a line break. *)
Fixpoint only_newlines (s : string) : bool :=
  match s with
  | EmptyString => true
  | String c r => Ascii.eqb c PyStr.LF && only_newlines r
  end.

(** [s] holds a line break. *)
Fixpoint has_newline (s : string) : bool :=
  match s with
  | EmptyString => false
  | String c r => Ascii.eqb c PyStr.LF || has_newline r
  end.

(** [s] begins with a whitespace character (of one, two or three
    bytes). *)
Definition starts_with_space (s : string) : bool :=
  match s with
  | EmptyString => false
  | String c1 r1 =>
      PyStr.space1 c1
      || match r1 with
         | EmptyString => false
         | String c2 r2 =>
             PyStr.space2 c1 c2
             || match r2 with
                | EmptyString => false
                | String c3 _ => PyStr.space3 c1 c2 c3
                end
         end
  end.

(** [s] is one whitespace character. *)
Definition one_space (s : string) : bool :=
  match s with
  | String c1 EmptyString => PyStr.space1 c1
  | String c1 (String c2 EmptyString) => PyStr.space2 c1 c2
  | String c1 (String c2 (String c3 EmptyString)) => PyStr.space3 c1 c2 c3
  | _ => false
  end.

(** [s] ends with a whitespace character: a tail of [s] is one. *)
Fixpoint ends_with_space (s : string) : bool :=
  match s with
  | EmptyString => false
  | String _ r => one_space s || ends_with_space r
  end.

(** U+00A0, the no-break space. *)
Definition nbsp : string :=
  String (ascii_of_nat 194) (String (ascii_of_nat 160) EmptyString).

(** U+2003, the em space. *)
Definition em_space : string :=
  String (ascii_of_nat 226)
    (String (ascii_of_nat 128) (String (ascii_of_nat 131) EmptyString)).

(** Structural induction on markup, with the property available for the
    objects nested in a link. *)
Fixpoint HTMLMarkup_deep_ind (P : HTMLMarkup -> Prop)
    (Hlink : forall href text, P (HTMLMarkupLink href text None))
    (Hnest : forall href text nested,
        Forall P nested -> P (HTMLMarkupLink href text (Some nested)))
    (Himg : forall src alt, P (HTMLMarkupImage src alt))
    (Htext : forall t e u, P (HTMLMarkupText t e u))
    (Herr : forall msg, P (HTMLMarkupError msg))
    (Htitle : forall t, P (HTMLMarkupTitle t))
    (m : HTMLMarkup) : P m :=
  match m with
  | HTMLMarkupLink href text None => Hlink href text
  | HTMLMarkupLink href text (Some nested) =>
      Hnest href text nested
        ((fix all (l : list HTMLMarkup) : Forall P l :=
            match l with
            | [] => Forall_nil P
            | c :: r =>
                Forall_cons c
                  (HTMLMarkup_deep_ind P Hlink Hnest Himg Htext Herr Htitle c)
                  (all r)
            end) nested)
  | HTMLMarkupImage src alt => Himg src alt
  | HTMLMarkupText t e u => Htext t e u
  | HTMLMarkupError msg => Herr msg
  | HTMLMarkupTitle t => Htitle t
  end.

(** The session of the examples: the screen, the documents and the disk
    above. *)
Module Session.

Definition unfocus (win : Screen.t) : Screen.t :=
  Screen.mkScreen (Screen.maxyx win) [].

Definition await_command
  : list Z -> Screen.Display
    -> result (option (bool * Screen.Display * list Z)) :=
  await_command Screen.maxyx Screen.addstr Screen.focus Screen.wrap unfocus.

(** The documents of [Docs] and the page of [Disk]. *)
Definition BeautifulSoup (markup : string) : PageElement :=
  if String.eqb markup "<p>Hi</p>"
  then Docs.document [Tag "p" [] [NavigableString "Hi"]]
  else Docs.BeautifulSoup markup.

Definition process
  : string -> list Z -> Screen.Display
    -> result (option (bool * Screen.Display * list Z)) :=
  process Screen.t Screen.maxyx Screen.addstr Screen.focus Screen.wrap
          unfocus BeautifulSoup Disk.os_path_exists Disk.os_path_isfile
          Disk.read_file Disk.urlopen.

Definition main_loop
  : list string -> list Z -> Screen.Display
    -> result (option Screen.Display) :=
  main_loop Screen.t Screen.maxyx Screen.addstr Screen.focus Screen.wrap
            unfocus BeautifulSoup Disk.os_path_exists
            Disk.os_path_isfile Disk.read_file Disk.urlopen.

End Session.

(** * Properties of the markup extractor *)

Section ExtractorFacts.

Lemma existsb_flat_map_false {A B : Type} (f : B -> bool)
      (g : A -> list B) (l : list A) :
  Forall (fun a => existsb f (g a) = false) l ->
  existsb f (flat_map g l) = false.
Proof.
  induction 1 as [|a l Ha _ IH]; simpl.
  - reflexivity.
  - rewrite existsb_app, Ha, IH. reflexivity.
Qed.

Lemma length_eqb_0 {A : Type} (l : list A) :
  (Z.of_nat (List.length l) =? 0)
  = match l with [] => true | _ :: _ => false end.
Proof.
  destruct l as [|x r]; [reflexivity|].
  apply Z.eqb_neq. cbn [List.length]. lia.
Qed.

(** [_parse] builds text, image and link elements only. *)
Lemma _parse_no_title (e : PageElement) :
  existsb has_title (_parse e) = false.
Proof.
  induction e as [s|s|s|s|n a cs IH] using PageElement_tree_ind;
    try (cbn [_parse]; destruct (PyStr.isspace s); reflexivity);
    try reflexivity.
  cbn [_parse].
  destruct (PyStr.mem n skipped_names); [reflexivity|].
  destruct (String.eqb n "img"); [reflexivity|].
  destruct (String.eqb n "br"); [reflexivity|].
  pose proof (existsb_flat_map_false has_title _parse cs IH) as Hall.
  destruct (String.eqb n "a"); [|exact Hall].
  destruct cs as [|c r]; [reflexivity|].
  destruct c as [s|s|s|s|n' a' cs'];
    try (cbn [existsb has_title]; rewrite Hall; reflexivity).
  destruct (PyStr.isspace s); reflexivity.
Qed.

Lemma _parse_as_plaintext_no_title (text : string) :
  existsb has_title (_parse_as_plaintext text) = false.
Proof.
  unfold _parse_as_plaintext.
  induction (filter PyStr.truthy (PyStr.split_newline text)) as [|l r IH];
    simpl; auto.
Qed.

Variable BeautifulSoup : string -> PageElement.

(** Line 99 dereferences [soup.head]: a document whose extraction reaches
    it without a head makes [parse] raise. *)
Lemma parse_without_head (content : WebsiteContent) (body : PageElement) :
  success content = true ->
  body_or_return (BeautifulSoup (html content)) = inl body ->
  Soup.find "head" (BeautifulSoup (html content)) = None ->
  parse BeautifulSoup content = Raise AttributeError.
Proof.
  intros Hs Hb Hh. unfold parse. rewrite Hs, Hb, Hh. reflexivity.
Qed.

(** With a head, the body route returns a sequence that is not empty. *)
Lemma parse_with_head_nonempty (content : WebsiteContent)
      (body head : PageElement) :
  success content = true ->
  body_or_return (BeautifulSoup (html content)) = inl body ->
  Soup.find "head" (BeautifulSoup (html content)) = Some head ->
  exists l, parse BeautifulSoup content = Ok l /\ l <> [].
Proof.
  intros Hs Hb Hh. unfold parse. rewrite Hs, Hb, Hh. cbn [negb].
  destruct (Soup.find "title" head) as [t|].
  - eexists. split; [reflexivity|discriminate].
  - rewrite length_eqb_0.
    destruct (_parse body) as [|m r];
      eexists; (split; [reflexivity|discriminate]).
Qed.

End ExtractorFacts.

(** The spec's end-to-end examples 2 and 3. *)
Example anchor_with_text :
  _parse (Tag "a" [("href", "/x")] [NavigableString "click"])
  = [HTMLMarkupLink (Some "/x") (Some "click") None].
Proof. reflexivity. Qed.

Example anchor_with_markup :
  _parse (Tag "a" [("href", "/x")]
            [Tag "b" [] [NavigableString "bold"]; NavigableString " text"])
  = [HTMLMarkupLink (Some "/x") None
       (Some [HTMLMarkupText "bold" false false;
              HTMLMarkupText " text" false false])].
Proof. reflexivity. Qed.

(** C1 (the code departs from the claim).  [parse] does raise, and does
    return an empty sequence: a document with a body and no head makes
    line 99 fail with [AttributeError], and a document that is only a line
    break takes the plaintext route, which returns the empty list. *)
Theorem parse_raises_and_returns_empty :
  parse Docs.BeautifulSoup (mkWebsiteContent Docs.html_no_head true "")
  = Raise AttributeError
  /\ parse Docs.BeautifulSoup (mkWebsiteContent Docs.html_newline true "")
     = Ok [].
Proof. split; reflexivity. Qed.

(** C4.  When the fetch failed, [parse] returns exactly the one-element
    sequence holding the error message, whatever the markup and whatever
    the tree builder would make of it. *)
Theorem parse_failed_fetch :
  forall (BeautifulSoup : string -> PageElement) (content : WebsiteContent),
    success content = false ->
    parse BeautifulSoup content = Ok [HTMLMarkupError (errmsg content)].
Proof.
  intros BS content Hs. unfold parse. rewrite Hs. reflexivity.
Qed.

Lemma parse_failed_fetch_witness :
  success (mkWebsiteContent "<p>ignored</p>" false "timeout") = false
  /\ parse Docs.BeautifulSoup (mkWebsiteContent "<p>ignored</p>" false "timeout")
     = Ok [HTMLMarkupError "timeout"].
Proof.
  split.
  - reflexivity.
  - apply (parse_failed_fetch Docs.BeautifulSoup
             (mkWebsiteContent "<p>ignored</p>" false "timeout")).
    reflexivity.
Defined.

(** C5 as stated fails: an anchor whose sole child is the text node [" "],
    which is not empty, contributes nothing. *)
Lemma anchor_blank_text_dropped :
  " " <> ""
  /\ _parse (Tag "a" [("href", "/x")] [NavigableString " "])
     <> [HTMLMarkupLink (Some "/x") (Some " ") None].
Proof. split; discriminate. Qed.

(** C5, amended.  An anchor without children contributes nothing; an anchor
    whose sole child is a text node contributes one link carrying that text
    and no children unless the text is whitespace-only ([str.isspace]), in
    which case it contributes nothing; an anchor whose first child is a tag
    contributes one link without text whose children are the extractions of
    all its children, concatenated in document order. *)
Theorem anchor_contribution :
  forall (attrs : list (string * string)),
    _parse (Tag "a" attrs []) = []
    /\ (forall s,
          _parse (Tag "a" attrs [NavigableString s])
          = if PyStr.isspace s then []
            else [HTMLMarkupLink (Soup.get attrs "href") (Some s) None])
    /\ (forall n a cs rest,
          _parse (Tag "a" attrs (Tag n a cs :: rest))
          = [HTMLMarkupLink (Soup.get attrs "href") None
               (Some (flat_map _parse (Tag n a cs :: rest)))]).
Proof.
  intros attrs. repeat split; intros; reflexivity.
Qed.

Lemma body_or_return_no_title (soup : PageElement) (early : list HTMLMarkup) :
  body_or_return soup = inr early -> existsb has_title early = false.
Proof.
  unfold body_or_return.
  destruct (Soup.find "body" soup); [discriminate|].
  destruct (negb (PyStr.len (Soup.get_text soup) =? 0)).
  - destruct (Soup.find "html" soup); [discriminate|].
    intros H. injection H as <-. apply _parse_as_plaintext_no_title.
  - intros H. injection H as <-. reflexivity.
Qed.

(** C8 as stated fails: a document whose head holds a title but which has
    neither a body nor an html root is read as plain text, and the sequence
    starts with a text element. *)
Lemma titled_head_read_as_plaintext :
  Soup.find "head" Docs.bare_head
  = Some (Tag "head" [] [Tag "title" [] [NavigableString "T"]])
  /\ Soup.find "title" (Tag "head" [] [Tag "title" [] [NavigableString "T"]])
     = Some (Tag "title" [] [NavigableString "T"])
  /\ parse Docs.BeautifulSoup (mkWebsiteContent Docs.html_bare_head true "")
     = Ok [HTMLMarkupText "T" false false].
Proof. repeat split. Qed.

(** C8, amended.  For every fetched document whose extraction reaches the
    body (it has a body, or it has text and an html root) and whose head
    holds a title, [parse] returns the title element, carrying the title's
    [string], followed by the extraction of the body.  For every document
    without a title in a head, no sequence that [parse] returns holds a
    title element, at the top or inside a link. *)
Theorem parse_title :
  (forall (BeautifulSoup : string -> PageElement) content body head t,
      success content = true ->
      body_or_return (BeautifulSoup (html content)) = inl body ->
      Soup.find "head" (BeautifulSoup (html content)) = Some head ->
      Soup.find "title" head = Some t ->
      parse BeautifulSoup content
      = Ok (HTMLMarkupTitle (Soup.string t) :: _parse body))
  /\ (forall (BeautifulSoup : string -> PageElement) content l,
         Soup.head_title (BeautifulSoup (html content)) = None ->
         parse BeautifulSoup content = Ok l ->
         existsb has_title l = false).
Proof.
  split.
  - intros BS content body head t Hs Hb Hh Ht.
    unfold parse. rewrite Hs, Hb, Hh, Ht. reflexivity.
  - intros BS content l Hnone. unfold parse, Soup.head_title in *.
    destruct (success content); cbn [negb].
    2:{ intros H. injection H as <-. reflexivity. }
    destruct (body_or_return (BS (html content))) as [body|early] eqn:Hb.
    2:{ intros H. injection H as <-.
        exact (body_or_return_no_title _ _ Hb). }
    destruct (Soup.find "head" (BS (html content))) as [head|];
      [|discriminate].
    rewrite Hnone, length_eqb_0.
    pose proof (_parse_no_title body) as Hp.
    destruct (_parse body) as [|m r]; intros H; injection H as <-.
    + reflexivity.
    + exact Hp.
Qed.

Lemma parse_title_witness :
  (success (mkWebsiteContent Docs.html_titled true "") = true
   /\ parse Docs.BeautifulSoup (mkWebsiteContent Docs.html_titled true "")
      = Ok [HTMLMarkupTitle (Some "T"); HTMLMarkupText "Hi" false false])
  /\ (Soup.head_title Docs.untitled = None
      /\ existsb has_title [HTMLMarkupText "Hi" false false] = false).
Proof.
  split; split.
  - reflexivity.
  - apply (proj1 parse_title Docs.BeautifulSoup
             (mkWebsiteContent Docs.html_titled true "")
             (Tag "body" [] [Tag "p" [] [NavigableString "Hi"]])
             (Tag "head" [] [Tag "title" [] [NavigableString "T"]])
             (Tag "title" [] [NavigableString "T"]));
      reflexivity.
  - reflexivity.
  - apply (proj2 parse_title Docs.BeautifulSoup
             (mkWebsiteContent Docs.html_untitled true "")
             [HTMLMarkupText "Hi" false false]);
      reflexivity.
Defined.

(** * Properties of the query classification *)

Lemma endswith_htm_not_html (s : string) :
  PyStr.endswith s ".htm" = true -> PyStr.endswith s ".html" = false.
Proof.
  induction s as [|c r IH]; cbn [PyStr.endswith].
  - discriminate.
  - destruct (String.eqb_spec (String c r) ".htm") as [E|_].
    + injection E as -> ->. reflexivity.
    + cbn [orb]. intros Hr. rewrite (IH Hr), orb_false_r.
      destruct (String.eqb_spec (String c r) ".html") as [E|_];
        [|reflexivity].
      injection E as _ ->. discriminate Hr.
Qed.

(** C9 as stated fails: an existing regular file whose name ends in [.htm]
    is classified as a path and refused. *)
Lemma htm_file_refused :
  Disk.os_path_exists Disk.page_htm = true
  /\ Disk.os_path_isfile Disk.page_htm = true
  /\ PyStr.endswith (PyStr.lower Disk.page_htm) ".htm" = true
  /\ Disk.search Disk.page_htm
     = Ok (mkWebsiteContent "" false
             "'/home/page.htm' is not a valid path to an HTML file.").
Proof. repeat split. Qed.

(** A query that begins with one of the three characters, or that is not
    empty and names an existing path, is classified as a path. *)
Lemma _is_path_of_form (os_path_exists : string -> bool) (query : string) :
  (exists c r, query = String c r
               /\ (c = "~"%char \/ c = "/"%char \/ c = "."%char))
  \/ (query <> "" /\ os_path_exists query = true) ->
  _is_path os_path_exists query = Ok true.
Proof.
  intros [(c & r & -> & Hc)|[Hne Hex]].
  - cbn [_is_path]. destruct Hc as [ -> | [ -> | -> ] ]; reflexivity.
  - destruct query as [|c r]; [contradiction|].
    cbn [_is_path]. rewrite Hex, !orb_true_r. reflexivity.
Qed.

(** C9, amended.  A query that begins with [~], [/] or [.], or that is not
    empty and names an existing path, is classified as a path and searched
    as a file.  The result is the failure content exactly when the path
    does not exist, is not a regular file, or its lower-cased name does not
    end in [.html]; otherwise it is the success content holding what
    reading the file returns.  In particular a name ending in [.htm] gives
    the failure content. *)
Theorem search_file_path :
  forall (os_path_exists os_path_isfile : string -> bool)
         (read_file : string -> result string)
         (urlopen : string -> fetch_outcome) (query : string),
    (exists c r, query = String c r
                 /\ (c = "~"%char \/ c = "/"%char \/ c = "."%char))
    \/ (query <> "" /\ os_path_exists query = true) ->
    let valid := os_path_exists query && os_path_isfile query
                 && PyStr.endswith (PyStr.lower query) ".html" in
    let failure := mkWebsiteContent "" false
                     ("'" ++ query ++ "' is not a valid path to an HTML file.")
    in
    _is_path os_path_exists query = Ok true
    /\ search os_path_exists os_path_isfile read_file urlopen query
       = _file_search os_path_exists os_path_isfile read_file query
    /\ search os_path_exists os_path_isfile read_file urlopen query
       = (if valid then text <- read_file query ;;
                        Ok (mkWebsiteContent text true "")
          else Ok failure)
    /\ (forall c,
          search os_path_exists os_path_isfile read_file urlopen query = Ok c ->
          (success c = true <-> valid = true))
    /\ (PyStr.endswith (PyStr.lower query) ".htm" = true ->
        search os_path_exists os_path_isfile read_file urlopen query
        = Ok failure).
Proof.
  intros ex isf rd net query Hform valid failure.
  pose proof (_is_path_of_form ex query Hform) as Hp.
  assert (Hf : search ex isf rd net query = _file_search ex isf rd query).
  { unfold search. rewrite Hp. reflexivity. }
  assert (Hs : search ex isf rd net query
               = if valid then text <- rd query ;;
                               Ok (mkWebsiteContent text true "")
                 else Ok failure).
  { rewrite Hf. unfold _file_search. subst valid failure.
    destruct (ex query), (isf query),
      (PyStr.endswith (PyStr.lower query) ".html"); reflexivity. }
  split; [exact Hp|]. split; [exact Hf|]. split; [exact Hs|]. split.
  - intros c. rewrite Hs. destruct valid.
    + destruct (rd query) as [text|e]; cbn [bind]; [|discriminate].
      intros H. injection H as <-. cbn. tauto.
    + intros H. injection H as <-. cbn. split; discriminate.
  - intros Hm. rewrite Hs. subst valid.
    rewrite (endswith_htm_not_html _ Hm), andb_false_r. reflexivity.
Qed.

Lemma search_file_path_witness :
  ((exists c r, Disk.page_html = String c r
                /\ (c = "~"%char \/ c = "/"%char \/ c = "."%char))
   \/ (Disk.page_html <> "" /\ Disk.os_path_exists Disk.page_html = true))
  /\ Disk.search Disk.page_html
     = Ok (mkWebsiteContent "<p>Hi</p>" true "").
Proof.
  assert (Hform :
            (exists c r, Disk.page_html = String c r
                         /\ (c = "~"%char \/ c = "/"%char \/ c = "."%char))
            \/ (Disk.page_html <> ""
                /\ Disk.os_path_exists Disk.page_html = true)).
  { left. exists "/"%char, "home/page.html". split; [reflexivity|].
    right. left. reflexivity. }
  split; [exact Hform|].
  exact (proj1 (proj2 (proj2 (search_file_path Disk.os_path_exists
                                Disk.os_path_isfile Disk.read_file
                                Disk.urlopen Disk.page_html Hform)))).
Defined.

(** A path that does not exist is still searched as a file when it begins
    with a dot, and a name is searched as a file when it exists. *)
Example dotted_missing_path :
  Disk.search "./missing.html"
  = Ok (mkWebsiteContent "" false
          "'./missing.html' is not a valid path to an HTML file.").
Proof. reflexivity. Qed.

Example bare_name_goes_to_the_web :
  Disk.search "page.html"
  = Ok (mkWebsiteContent "" false "<urlopen error offline>").
Proof. reflexivity. Qed.

(** * Properties of the display *)

Example init_fresh : Screen.init 24 80 = Some Screen.fresh.
Proof. reflexivity. Qed.

Example init_too_small : Screen.init 6 80 = None.
Proof. reflexivity. Qed.

(** What a titled page looks like on the fresh display. *)
Example draw_short_page :
  Screen.writes (content_win (Screen.showing Screen.short_page))
  = [Screen.mkWrite (Some (0, 1)) "T" ["A_BOLD"; "A_UNDERLINE"];
     Screen.mkWrite (Some (1, 1)) "Hi" ["default"]].
Proof. reflexivity. Qed.

(** Case analysis on the guards of [_scroll_coordinates]. *)
Ltac scroll_cases :=
  unfold _scroll_coordinates, UP, DOWN in *;
  repeat match goal with
         | |- context [Z.ltb ?a ?b] => destruct (Z.ltb_spec a b)
         | |- context [Z.eqb ?a ?b] => destruct (Z.eqb_spec a b)
         end;
  cbn [andb]; cbn; try lia.

Section DisplayFacts.

Variable window : Type.
Variable getmaxyx : window -> Z * Z.
Variable addstr :
  window -> option (Z * Z) -> string -> list string -> window * bool.
Variable focus : window -> window.
Variable wrap : string -> Z -> list string.

Local Abbreviation redraw := (draw getmaxyx addstr focus wrap).
Local Abbreviation scroll := (_scroll getmaxyx addstr focus wrap).

(** [draw] replaces the window and the held content, nothing else. *)
Lemma draw_coordinates (d : Display window)
      (content : option (list HTMLMarkup)) :
  _top (fst (redraw d content)) = _top d
  /\ _bottom (fst (redraw d content)) = _bottom d
  /\ _max_lines (fst (redraw d content)) = _max_lines d
  /\ _current_line (fst (redraw d content)) = _current_line d
  /\ _current_content (fst (redraw d content)) = content.
Proof.
  unfold draw. destruct content as [c|]; cbn [fst].
  - destruct (_draw_content _ _ _ _ _ _ _) as [win r].
    cbn. repeat split.
  - cbn. repeat split.
Qed.

Lemma _scroll_top (d : Display window) (direction : Z) :
  _top (fst (scroll d direction))
  = _top (_scroll_coordinates d direction).
Proof. unfold _scroll. apply draw_coordinates. Qed.

Lemma _scroll_current_line (d : Display window) (direction : Z) :
  _current_line (fst (scroll d direction))
  = _current_line (_scroll_coordinates d direction).
Proof. unfold _scroll. apply draw_coordinates. Qed.

Lemma _scroll_bottom (d : Display window) (direction : Z) :
  _bottom (fst (scroll d direction)) = _bottom d.
Proof.
  unfold _scroll.
  rewrite (proj1 (proj2 (draw_coordinates _ _))).
  unfold _scroll_coordinates.
  repeat match goal with |- context [if ?b then _ else _] => destruct b end;
    reflexivity.
Qed.

(** The guard of the first branch bounds the cursor from above. *)
Lemma _scroll_keeps_upper_bound (d : Display window) (direction : Z) :
  _current_line d < _bottom d ->
  _current_line (fst (scroll d direction))
  < _bottom (fst (scroll d direction)).
Proof.
  intros Hb. rewrite _scroll_current_line, _scroll_bottom.
  scroll_cases.
Qed.

(** Nothing bounds it from below. *)
Lemma _scroll_up_unguarded (d : Display window) :
  _current_line d <= _bottom d -> _top d + _current_line d <= _bottom d ->
  _current_line (fst (scroll d UP)) = _current_line d - 1.
Proof.
  intros H1 H2. rewrite _scroll_current_line.
  scroll_cases.
Qed.

(** The first element is left out of the page whatever it is. *)
Lemma page_leaves_out_first (d : Display window) (first : HTMLMarkup)
      (body : list HTMLMarkup) :
  page d (first :: body)
  = PySeq.slice body (_current_line d) (_current_line d + _max_lines d).
Proof. reflexivity. Qed.

End DisplayFacts.

(** C2 (the code departs from the claim).  Line 259 takes the window from
    [content[1:]] without looking at what the first element is.  A sequence
    that does not start with a title loses its first element: the page of a
    one-element sequence is empty on every display, and drawing the
    untitled page writes nothing. *)
Theorem page_drops_untitled_first_element :
  (forall (window : Type) (d : Display window) (m : HTMLMarkup),
      page d [m] = [])
  /\ page Screen.fresh Screen.untitled_page = []
  /\ Screen.draw Screen.fresh (Some Screen.untitled_page)
     = (Screen.showing Screen.untitled_page, Ok tt)
  /\ Screen.writes (content_win (Screen.showing Screen.untitled_page)) = [].
Proof.
  split; [|repeat split].
  intros window d m. unfold page, PySeq.slice, PySeq.from1. cbn [tl].
  rewrite skipn_nil. apply firstn_nil.
Qed.

(** C3 (the code departs from the claim).  Scrolling up at
    [current_line = 0, top = 0] takes the first branch of [_scroll], whose
    guards only look at the bottom: the cursor becomes [-1]. *)
Theorem scroll_up_from_origin_goes_negative :
  _top (Screen.showing Screen.short_page) = 0
  /\ _current_line (Screen.showing Screen.short_page) = 0
  /\ _top (fst (Screen._scroll (Screen.showing Screen.short_page) UP)) = 0
  /\ _current_line
       (fst (Screen._scroll (Screen.showing Screen.short_page) UP)) = -1.
Proof. repeat split. Qed.

(** C6 as stated fails: the body of the short page has one row, the window
    has eighteen, and scrolling down from the origin moves the cursor to
    row 1. *)
Lemma scroll_down_short_page_moves :
  _top (Screen.showing Screen.short_page) = 0
  /\ _current_line (Screen.showing Screen.short_page) = 0
  /\ Z.of_nat (List.length (PySeq.from1 Screen.short_page))
     <= _max_lines (Screen.showing Screen.short_page)
  /\ _top (fst (Screen._scroll (Screen.showing Screen.short_page) DOWN)) = 0
  /\ _current_line
       (fst (Screen._scroll (Screen.showing Screen.short_page) DOWN)) = 1.
Proof.
  split; [reflexivity|]. split; [reflexivity|].
  split; [vm_compute; discriminate|].
  split; reflexivity.
Qed.

(** C6, amended.  Scrolling down from [current_line = 0, top = 0] moves the
    cursor to row 1 and leaves [top] at 0 whenever the window has more than
    one row, whatever the held content and however few rows its body
    has. *)
Theorem scroll_down_from_origin :
  forall (window : Type) (getmaxyx : window -> Z * Z)
         (addstr : window -> option (Z * Z) -> string -> list string
                   -> window * bool)
         (focus : window -> window) (wrap : string -> Z -> list string)
         (d : Display window),
    _top d = 0 -> _current_line d = 0 -> 1 < _bottom d ->
    _top (fst (_scroll getmaxyx addstr focus wrap d DOWN)) = 0
    /\ _current_line (fst (_scroll getmaxyx addstr focus wrap d DOWN)) = 1.
Proof.
  intros window getmaxyx addstr focus wrap d Ht Hc Hb.
  rewrite _scroll_top, _scroll_current_line. scroll_cases.
Qed.

Lemma scroll_down_from_origin_witness :
  _top (Screen.showing Screen.short_page) = 0
  /\ _current_line (Screen.showing Screen.short_page) = 0
  /\ 1 < _bottom (Screen.showing Screen.short_page)
  /\ _top (fst (Screen._scroll (Screen.showing Screen.short_page) DOWN)) = 0
  /\ _current_line
       (fst (Screen._scroll (Screen.showing Screen.short_page) DOWN)) = 1.
Proof.
  split; [reflexivity|]. split; [reflexivity|]. split; [reflexivity|].
  apply (scroll_down_from_origin Screen.t Screen.maxyx Screen.addstr
           Screen.focus Screen.wrap (Screen.showing Screen.short_page));
    reflexivity.
Defined.

(** C7.  From a position where scrolling down takes the normal branch,
    scrolling down and then up restores [top] and [current_line]. *)
Theorem scroll_down_then_up :
  forall (window : Type) (getmaxyx : window -> Z * Z)
         (addstr : window -> option (Z * Z) -> string -> list string
                   -> window * bool)
         (focus : window -> window) (wrap : string -> Z -> list string)
         (d : Display window),
    _current_line d + DOWN < _bottom d ->
    _top d + (_current_line d + DOWN) < _bottom d ->
    _top (scrolls getmaxyx addstr focus wrap d [DOWN; UP]) = _top d
    /\ _current_line (scrolls getmaxyx addstr focus wrap d [DOWN; UP])
       = _current_line d.
Proof.
  intros window getmaxyx addstr focus wrap d H1 H2.
  unfold scrolls. cbn [fold_left].
  set (d1 := fst (_scroll getmaxyx addstr focus wrap d DOWN)).
  assert (Ht : _top d1 = _top d)
    by (subst d1; rewrite _scroll_top; scroll_cases).
  assert (Hc : _current_line d1 = _current_line d + 1)
    by (subst d1; rewrite _scroll_current_line; scroll_cases).
  assert (Hb : _bottom d1 = _bottom d) by apply _scroll_bottom.
  rewrite _scroll_top, _scroll_current_line.
  unfold DOWN in *. scroll_cases.
Qed.

Lemma scroll_down_then_up_witness :
  _current_line (Screen.showing Screen.short_page) + DOWN
  < _bottom (Screen.showing Screen.short_page)
  /\ _top (Screen.showing Screen.short_page)
     + (_current_line (Screen.showing Screen.short_page) + DOWN)
     < _bottom (Screen.showing Screen.short_page)
  /\ _top (scrolls Screen.maxyx Screen.addstr Screen.focus Screen.wrap
             (Screen.showing Screen.short_page) [DOWN; UP])
     = _top (Screen.showing Screen.short_page)
  /\ _current_line
       (scrolls Screen.maxyx Screen.addstr Screen.focus Screen.wrap
          (Screen.showing Screen.short_page) [DOWN; UP])
     = _current_line (Screen.showing Screen.short_page).
Proof.
  split; [reflexivity|]. split; [reflexivity|].
  apply (scroll_down_then_up Screen.t Screen.maxyx Screen.addstr
           Screen.focus Screen.wrap (Screen.showing Screen.short_page));
    reflexivity.
Defined.

(** C10.  No scroll command decreases [top], so it does not decrease over
    any run of scroll commands; resetting the page coordinates sets it
    to 0. *)
Theorem top_never_decreases :
  forall (window : Type) (getmaxyx : window -> Z * Z)
         (addstr : window -> option (Z * Z) -> string -> list string
                   -> window * bool)
         (focus : window -> window) (wrap : string -> Z -> list string),
    (forall (d : Display window) (direction : Z),
        _top d <= _top (fst (_scroll getmaxyx addstr focus wrap d direction)))
    /\ (forall (directions : list Z) (d : Display window),
           _top d <= _top (scrolls getmaxyx addstr focus wrap d directions))
    /\ (forall (d : Display window),
           _top (_reset_page_coordinates getmaxyx d) = 0).
Proof.
  intros window getmaxyx addstr focus wrap.
  assert (Hstep : forall (d : Display window) (direction : Z),
             _top d
             <= _top (fst (_scroll getmaxyx addstr focus wrap d direction))).
  { intros d direction. rewrite _scroll_top. scroll_cases. }
  split; [exact Hstep|]. split.
  - unfold scrolls.
    induction directions as [|direction rest IH]; intros d; cbn [fold_left].
    + lia.
    + specialize (Hstep d direction).
      specialize (IH (fst (_scroll getmaxyx addstr focus wrap d direction))).
      lia.
  - intros d. reflexivity.
Qed.

(** * Further properties of the markup extractor *)

Lemma forallb_flat_map_true {A B : Type} (f : B -> bool)
      (g : A -> list B) (l : list A) :
  Forall (fun a => forallb f (g a) = true) l ->
  forallb f (flat_map g l) = true.
Proof.
  induction 1 as [|a l Ha _ IH]; cbn [flat_map forallb].
  - reflexivity.
  - rewrite forallb_app, Ha, IH. reflexivity.
Qed.

(** A property of the five shapes [_parse] builds holds of everything it
    returns, at every depth. *)
Lemma _parse_deep_all (P : HTMLMarkup -> bool) :
  (forall s, PyStr.isspace s = false ->
             P (HTMLMarkupText s false false) = true) ->
  P (HTMLMarkupText PyStr.newline false false) = true ->
  (forall src alt, P (HTMLMarkupImage src alt) = true) ->
  (forall href s, PyStr.isspace s = false ->
                  P (HTMLMarkupLink href (Some s) None) = true) ->
  (forall href l, P (HTMLMarkupLink href None (Some l)) = true) ->
  forall e, forallb (deep_all P) (_parse e) = true.
Proof.
  intros Htext Hbr Himg Hlink Hnest e.
  induction e as [s|s|s|s|n a cs IH] using PageElement_tree_ind;
    try (cbn [_parse]; destruct (PyStr.isspace s) eqn:E;
         cbn [forallb deep_all]; [reflexivity|];
         rewrite (Htext s E); reflexivity);
    try reflexivity.
  cbn [_parse].
  destruct (PyStr.mem n skipped_names); [reflexivity|].
  destruct (String.eqb n "img");
    [cbn [forallb deep_all]; rewrite Himg; reflexivity|].
  destruct (String.eqb n "br");
    [cbn [forallb deep_all]; rewrite Hbr; reflexivity|].
  pose proof (forallb_flat_map_true (deep_all P) _parse cs IH) as Hall.
  destruct (String.eqb n "a"); [|exact Hall].
  destruct cs as [|c r]; [reflexivity|].
  destruct c as [s|s|s|s|n' a' cs'];
    try (cbn [forallb deep_all]; rewrite Hnest, Hall; reflexivity).
  destruct (PyStr.isspace s) eqn:E; cbn [forallb deep_all]; [reflexivity|].
  rewrite (Hlink _ s E). reflexivity.
Qed.

Lemma deep_all_top (P : HTMLMarkup -> bool) (l : list HTMLMarkup) :
  forallb (deep_all P) l = true -> forallb P l = true.
Proof.
  induction l as [|m r IH]; cbn [forallb]; [reflexivity|].
  intros H. apply andb_prop in H as [Hm Hr].
  destruct m; cbn [deep_all] in Hm; apply andb_prop in Hm as [Hm _];
    rewrite Hm, (IH Hr); reflexivity.
Qed.

(** X1.  [_parse] returns links, images and texts only: no error and no
    title element occurs in its result, at the top or nested in a link. *)
Theorem _parse_body_classes :
  forall e : PageElement, forallb (deep_all body_class) (_parse e) = true.
Proof. apply _parse_deep_all; reflexivity. Qed.

(** X2.  No whitespace-only text gets through [_parse]: every text element
    of the result, nested ones included, is the line-break sentinel of a
    [br], or is empty, or has a character that is not whitespace, and the
    text of every link is empty or has a character that is not
    whitespace. *)
Theorem _parse_visible_text :
  forall e : PageElement, forallb (deep_all visible_text) (_parse e) = true.
Proof.
  assert (Hink : forall s, PyStr.isspace s = false ->
                           empty_or_inked s = true).
  { intros [|c r] E; [reflexivity|].
    unfold empty_or_inked. unfold PyStr.isspace in E. rewrite E.
    reflexivity. }
  apply _parse_deep_all; try reflexivity.
  - intros s E. cbn [visible_text]. rewrite (Hink s E). apply orb_true_r.
  - intros href s E. cbn [visible_text]. exact (Hink s E).
Qed.

(** X3.  Every link [_parse] returns, nested ones included, carries either
    a text or nested objects: never both and never neither. *)
Theorem _parse_link_shape :
  forall e : PageElement, forallb (deep_all link_shape) (_parse e) = true.
Proof. apply _parse_deep_all; reflexivity. Qed.

Lemma _parse_no_error (e : PageElement) (msg : string) :
  ~ In (HTMLMarkupError msg) (_parse e).
Proof.
  intros Hin.
  pose proof (deep_all_top _ _ (_parse_deep_all body_class
                (fun _ _ => eq_refl) eq_refl (fun _ _ => eq_refl)
                (fun _ _ _ => eq_refl) (fun _ _ => eq_refl) e)) as H.
  rewrite forallb_forall in H. specialize (H _ Hin). discriminate H.
Qed.

Lemma _parse_as_plaintext_no_error (text msg : string) :
  ~ In (HTMLMarkupError msg) (_parse_as_plaintext text).
Proof.
  unfold _parse_as_plaintext. intros Hin.
  apply in_map_iff in Hin as (line & Heq & _). discriminate Heq.
Qed.

(** X4.  An error element is always alone: a sequence [parse] returns that
    holds an error element holds nothing else. *)
Theorem parse_error_is_alone :
  forall (BeautifulSoup : string -> PageElement) (content : WebsiteContent)
         (l : list HTMLMarkup) (msg : string),
    parse BeautifulSoup content = Ok l ->
    In (HTMLMarkupError msg) l ->
    l = [HTMLMarkupError msg].
Proof.
  intros BS content l msg. unfold parse.
  destruct (success content); cbn [negb].
  2:{ intros H Hin. injection H as <-.
      destruct Hin as [Hin|[]]. rewrite Hin. reflexivity. }
  destruct (body_or_return (BS (html content))) as [body|early] eqn:Hb.
  - destruct (Soup.find "head" (BS (html content))) as [head|];
      [|discriminate].
    rewrite length_eqb_0.
    destruct (Soup.find "title" head) as [t|].
    + intros H Hin. injection H as <-.
      destruct Hin as [Hin|Hin]; [discriminate Hin|].
      destruct (_parse_no_error _ _ Hin).
    + pose proof (_parse_no_error body msg) as Hno.
      destruct (_parse body) as [|m r]; intros H Hin; injection H as <-.
      * destruct Hin as [Hin|[]]. rewrite Hin. reflexivity.
      * destruct (Hno Hin).
  - unfold body_or_return in Hb.
    destruct (Soup.find "body" (BS (html content))); [discriminate|].
    destruct (negb (PyStr.len (Soup.get_text (BS (html content))) =? 0)).
    + destruct (Soup.find "html" (BS (html content))); [discriminate|].
      injection Hb as <-. intros H Hin. injection H as <-.
      destruct (_parse_as_plaintext_no_error _ _ Hin).
    + injection Hb as <-. intros H Hin. injection H as <-.
      destruct Hin as [Hin|[]]. rewrite Hin. reflexivity.
Qed.

Lemma parse_error_is_alone_witness :
  parse Docs.BeautifulSoup (mkWebsiteContent "" false "timeout")
  = Ok [HTMLMarkupError "timeout"]
  /\ In (HTMLMarkupError "timeout") [HTMLMarkupError "timeout"]
  /\ [HTMLMarkupError "timeout"] = [HTMLMarkupError "timeout"].
Proof.
  split; [reflexivity|]. split; [left; reflexivity|].
  apply (parse_error_is_alone Docs.BeautifulSoup
           (mkWebsiteContent "" false "timeout")
           [HTMLMarkupError "timeout"] "timeout").
  - reflexivity.
  - left. reflexivity.
Defined.

(** X5.  A title element occurs at most once and only in front: in a
    sequence [parse] returns, nothing after the first element is or holds
    a title. *)
Theorem parse_title_only_first :
  forall (BeautifulSoup : string -> PageElement) (content : WebsiteContent)
         (m : HTMLMarkup) (r : list HTMLMarkup),
    parse BeautifulSoup content = Ok (m :: r) ->
    existsb has_title r = false.
Proof.
  intros BS content m r. unfold parse.
  destruct (success content); cbn [negb].
  2:{ intros H. injection H as _ <-. reflexivity. }
  destruct (body_or_return (BS (html content))) as [body|early] eqn:Hb.
  - destruct (Soup.find "head" (BS (html content))) as [head|];
      [|discriminate].
    rewrite length_eqb_0.
    pose proof (_parse_no_title body) as Hno.
    destruct (Soup.find "title" head) as [t|].
    + intros H. injection H as _ <-. exact Hno.
    + destruct (_parse body) as [|m' r']; intros H; injection H as _ <-.
      * reflexivity.
      * cbn [existsb] in Hno. apply orb_false_elim in Hno. apply Hno.
  - intros H. injection H as ->.
    pose proof (body_or_return_no_title _ _ Hb) as Hno.
    cbn [existsb] in Hno. apply orb_false_elim in Hno. apply Hno.
Qed.

Lemma parse_title_only_first_witness :
  parse Docs.BeautifulSoup (mkWebsiteContent Docs.html_titled true "")
  = Ok [HTMLMarkupTitle (Some "T"); HTMLMarkupText "Hi" false false]
  /\ existsb has_title [HTMLMarkupText "Hi" false false] = false.
Proof.
  split; [reflexivity|].
  apply (parse_title_only_first Docs.BeautifulSoup
           (mkWebsiteContent Docs.html_titled true "")
           (HTMLMarkupTitle (Some "T"))).
  reflexivity.
Defined.

(** ** The plaintext route *)

Lemma split_newline_blank (s : string) :
  forallb (fun piece => negb (PyStr.truthy piece)) (PyStr.split_newline s)
  = only_newlines s.
Proof.
  induction s as [|c r IH]; [reflexivity|].
  cbn [PyStr.split_newline only_newlines].
  destruct (Ascii.eqb c PyStr.LF).
  - cbn [forallb PyStr.truthy negb andb]. exact IH.
  - destruct (PyStr.split_newline r); reflexivity.
Qed.

Lemma filter_nil_forallb {A : Type} (f : A -> bool) (l : list A) :
  filter f l = [] <-> forallb (fun x => negb (f x)) l = true.
Proof.
  induction l as [|x r IH]; cbn [filter forallb]; [tauto|].
  destruct (f x); cbn [negb andb]; [|exact IH].
  split; discriminate.
Qed.

Lemma split_newline_no_newline (s : string) :
  Forall (fun piece => has_newline piece = false) (PyStr.split_newline s).
Proof.
  induction s as [|c r IH]; cbn [PyStr.split_newline].
  - repeat constructor.
  - destruct (Ascii.eqb c PyStr.LF) eqn:E.
    + constructor; [reflexivity|exact IH].
    + destruct (PyStr.split_newline r) as [|h t].
      * constructor; [|constructor]. cbn [has_newline]. rewrite E.
        reflexivity.
      * inversion IH as [|? ? Hh Ht]; subst.
        constructor; [|exact Ht]. cbn [has_newline]. rewrite E, Hh.
        reflexivity.
Qed.

Lemma string_strong_ind (P : string -> Prop) :
  (forall s, (forall t, (String.length t < String.length s)%nat -> P t)
             -> P s) ->
  forall s, P s.
Proof.
  intros Hstep.
  assert (Hall : forall n s, (String.length s < n)%nat -> P s).
  { induction n as [|n IH]; intros s Hl; [lia|].
    apply Hstep. intros t Ht. apply IH. lia. }
  intros s. apply (Hall (S (String.length s))). lia.
Qed.

Lemma has_newline_tail (c : ascii) (r : string) :
  has_newline (String c r) = false -> has_newline r = false.
Proof.
  cbn [has_newline]. intros H. apply orb_false_elim in H. apply H.
Qed.

Lemma lstrip_no_newline (s : string) :
  has_newline s = false -> has_newline (PyStr.lstrip s) = false.
Proof.
  induction s as [s IH] using string_strong_ind.
  destruct s as [|c1 r1]; [reflexivity|]. intros Hn.
  pose proof (has_newline_tail _ _ Hn) as H1.
  cbn [PyStr.lstrip]. destruct (PyStr.space1 c1).
  { apply IH; [cbn; lia|exact H1]. }
  destruct r1 as [|c2 r2]; [exact Hn|].
  pose proof (has_newline_tail _ _ H1) as H2.
  destruct (PyStr.space2 c1 c2).
  { apply IH; [cbn; lia|exact H2]. }
  destruct r2 as [|c3 r3]; [exact Hn|].
  destruct (PyStr.space3 c1 c2 c3); [|exact Hn].
  apply IH; [cbn; lia|exact (has_newline_tail _ _ H2)].
Qed.

Lemma rstrip_cons (c : ascii) (r : string) :
  PyStr.rstrip (String c r)
  = if PyStr.all_space (String c r) then EmptyString
    else String c (PyStr.rstrip r).
Proof. reflexivity. Qed.

Lemma rstrip_no_newline (s : string) :
  has_newline s = false -> has_newline (PyStr.rstrip s) = false.
Proof.
  induction s as [|c r IH]; [reflexivity|].
  rewrite rstrip_cons. intros H.
  destruct (PyStr.all_space (String c r)); [reflexivity|].
  cbn [has_newline] in *. apply orb_false_elim in H as [Hc Hr].
  rewrite Hc, (IH Hr). reflexivity.
Qed.

Lemma lstrip_starts (s : string) :
  starts_with_space (PyStr.lstrip s) = false.
Proof.
  induction s as [s IH] using string_strong_ind.
  destruct s as [|c1 r1]; [reflexivity|].
  cbn [PyStr.lstrip]. destruct (PyStr.space1 c1) eqn:E1.
  { apply IH. cbn. lia. }
  destruct r1 as [|c2 r2].
  { cbn [starts_with_space]. rewrite E1. reflexivity. }
  destruct (PyStr.space2 c1 c2) eqn:E2.
  { apply IH. cbn. lia. }
  destruct r2 as [|c3 r3].
  { cbn [starts_with_space]. rewrite E1, E2. reflexivity. }
  destruct (PyStr.space3 c1 c2 c3) eqn:E3.
  { apply IH. cbn. lia. }
  cbn [starts_with_space]. rewrite E1, E2, E3. reflexivity.
Qed.

(** What [rstrip] cuts off is whitespace. *)
Lemma rstrip_split (s : string) :
  exists t, s = PyStr.rstrip s ++ t /\ PyStr.all_space t = true.
Proof.
  induction s as [|c r (t & Hs & Ht)].
  - exists EmptyString. split; reflexivity.
  - rewrite rstrip_cons.
    destruct (PyStr.all_space (String c r)) eqn:E.
    + exists (String c r). split; [reflexivity|exact E].
    + exists t. split; [|exact Ht]. cbn [append]. f_equal. exact Hs.
Qed.

Lemma starts_with_space_append (p t : string) :
  starts_with_space p = true -> starts_with_space (p ++ t) = true.
Proof.
  destruct p as [|c1 [|c2 [|c3 r3]]]; cbn [starts_with_space append];
    try discriminate; intros H.
  - rewrite orb_false_r in H. rewrite H. reflexivity.
  - rewrite orb_false_r in H. apply orb_prop in H as [H|H]; rewrite H.
    + reflexivity.
    + destruct t; rewrite ?orb_true_r; reflexivity.
  - exact H.
Qed.

Lemma rstrip_starts (s : string) :
  starts_with_space s = false -> starts_with_space (PyStr.rstrip s) = false.
Proof.
  intros Hs. destruct (rstrip_split s) as (t & Heq & _).
  destruct (starts_with_space (PyStr.rstrip s)) eqn:E; [|reflexivity].
  apply (starts_with_space_append _ t) in E.
  rewrite <- Heq in E. congruence.
Qed.

Lemma space2_not_space1 (c1 c2 : ascii) :
  PyStr.space2 c1 c2 = true -> PyStr.space1 c1 = false.
Proof.
  unfold PyStr.space2, PyStr.space1. intros H.
  apply andb_prop in H as [H _]. apply Nat.eqb_eq in H. rewrite H.
  reflexivity.
Qed.

Lemma space3_not_shorter (c1 c2 c3 : ascii) :
  PyStr.space3 c1 c2 c3 = true ->
  PyStr.space1 c1 = false /\ PyStr.space2 c1 c2 = false.
Proof.
  unfold PyStr.space3, PyStr.space2, PyStr.space1.
  destruct (Nat.eqb_spec (nat_of_ascii c1) 225) as [->|_];
    [intros _; split; reflexivity|].
  destruct (Nat.eqb_spec (nat_of_ascii c1) 226) as [->|_];
    [intros _; split; reflexivity|].
  destruct (Nat.eqb_spec (nat_of_ascii c1) 227) as [->|_];
    [intros _; split; reflexivity|].
  cbn [andb orb]. discriminate.
Qed.

(** One whitespace character in front does not change [all_space]. *)
Lemma all_space_after_one (w t : string) :
  one_space w = true -> PyStr.all_space (w ++ t) = PyStr.all_space t.
Proof.
  destruct w as [|c1 [|c2 [|c3 [|c4 r4]]]]; cbn [one_space];
    try discriminate; intros H; cbn [append PyStr.all_space].
  - rewrite H. reflexivity.
  - rewrite (space2_not_space1 _ _ H), H. reflexivity.
  - destruct (space3_not_shorter _ _ _ H) as [H1 H2].
    rewrite H1, H2, H. reflexivity.
Qed.

Lemma rstrip_ends (s : string) :
  ends_with_space (PyStr.rstrip s) = false.
Proof.
  induction s as [|c r IH]; [reflexivity|].
  rewrite rstrip_cons.
  destruct (PyStr.all_space (String c r)) eqn:E; [reflexivity|].
  cbn [ends_with_space]. rewrite IH, orb_false_r.
  destruct (one_space (String c (PyStr.rstrip r))) eqn:E1; [|reflexivity].
  destruct (rstrip_split r) as (t & Heq & Ht).
  pose proof (all_space_after_one _ t E1) as H.
  cbn [append] in H. rewrite <- Heq, Ht in H. congruence.
Qed.

(** X6.  [_parse_as_plaintext] returns plain text elements, one per line:
    none of them holds a line break, and none begins or ends with
    whitespace. *)
Theorem _parse_as_plaintext_lines :
  forall text : string,
    Forall (fun m => exists t,
                m = HTMLMarkupText t false false
                /\ has_newline t = false
                /\ starts_with_space t = false
                /\ ends_with_space t = false)
           (_parse_as_plaintext text).
Proof.
  intros text. unfold _parse_as_plaintext.
  apply Forall_map.
  assert (H : Forall (fun piece => has_newline piece = false)
                     (filter PyStr.truthy (PyStr.split_newline text))).
  { apply Forall_forall. intros piece Hin. apply filter_In in Hin as [Hin _].
    exact (proj1 (Forall_forall _ _) (split_newline_no_newline text) _ Hin). }
  induction H as [|piece l Hp _ IH]; constructor; [|exact IH].
  exists (PyStr.strip piece). unfold PyStr.strip. repeat split.
  - apply rstrip_no_newline, lstrip_no_newline, Hp.
  - apply rstrip_starts, lstrip_starts.
  - apply rstrip_ends.
Qed.

(** Whitespace outside ASCII is whitespace too; a byte that only looks
    like the end of a no-break space is not. *)
Example isspace_beyond_ascii :
  PyStr.isspace (nbsp ++ em_space ++ " ") = true
  /\ PyStr.isspace (nbsp ++ "x") = false
  /\ PyStr.strip (nbsp ++ "Hi " ++ em_space) = "Hi"
  /\ PyStr.strip
       ("voil" ++ String (ascii_of_nat 195) (String (ascii_of_nat 160) ""))
     = "voil" ++ String (ascii_of_nat 195) (String (ascii_of_nat 160) "")
  /\ _parse (Tag "a" [("href", "/x")] [NavigableString nbsp]) = []
  /\ _parse (NavigableString (em_space ++ nbsp)) = []
  /\ _parse_as_plaintext (nbsp ++ "Hi ")
     = [HTMLMarkupText "Hi" false false].
Proof. repeat split. Qed.

(** X7.  [_parse_as_plaintext] returns the empty list exactly when the
    text has no character other than line breaks. *)
Theorem _parse_as_plaintext_empty :
  forall text : string,
    _parse_as_plaintext text = [] <-> only_newlines text = true.
Proof.
  intros text. unfold _parse_as_plaintext.
  rewrite <- split_newline_blank, <- filter_nil_forallb.
  destruct (filter PyStr.truthy (PyStr.split_newline text)); cbn [map].
  - tauto.
  - split; discriminate.
Qed.

Lemma _parse_as_plaintext_empty_witness :
  only_newlines (String PyStr.LF (String PyStr.LF "")) = true
  /\ _parse_as_plaintext (String PyStr.LF (String PyStr.LF "")) = [].
Proof.
  split; [reflexivity|].
  apply (proj2 (_parse_as_plaintext_empty
                  (String PyStr.LF (String PyStr.LF "")))).
  reflexivity.
Defined.

(** ** When [parse] raises and when it returns nothing *)

Lemma len_eqb_0 (s : string) :
  (PyStr.len s =? 0) = negb (PyStr.truthy s).
Proof.
  destruct s as [|c r]; [reflexivity|].
  apply Z.eqb_neq. unfold PyStr.len. cbn [String.length]. lia.
Qed.

Lemma plaintext_nil (text : string) :
  _parse_as_plaintext text = [] <-> only_newlines text = true.
Proof.
  unfold _parse_as_plaintext.
  rewrite <- split_newline_blank, <- filter_nil_forallb.
  destruct (filter PyStr.truthy (PyStr.split_newline text)); cbn [map].
  - tauto.
  - split; discriminate.
Qed.

(** X8.  [parse] raises in two situations only, both after a fetch that
    succeeded: the tree builder refuses the markup at line 82, and its
    exception leaves [parse]; or the builder returns a tree whose
    extraction reaches the body (a body, or text with an html root) and
    that has no head, and the exception is [AttributeError]. *)
Theorem parse_raises_iff :
  forall (BeautifulSoup : string -> result PageElement)
         (content : WebsiteContent) (e : exn),
    parse_from_markup BeautifulSoup content = Raise e
    <-> (success content = true
         /\ (BeautifulSoup (html content) = Raise e
             \/ (e = AttributeError
                 /\ exists soup body,
                      BeautifulSoup (html content) = Ok soup
                      /\ body_or_return soup = inl body
                      /\ Soup.find "head" soup = None))).
Proof.
  intros BS content e. unfold parse_from_markup, parse. split.
  - destruct (success content); cbn [negb]; [|discriminate].
    destruct (BS (html content)) as [soup|ex]; cbn [bind].
    2:{ intros H. injection H as <-. split; [reflexivity|]. left.
        reflexivity. }
    destruct (body_or_return soup) as [body|early] eqn:Hb; [|discriminate].
    destruct (Soup.find "head" soup) as [head|] eqn:Hh.
    + destruct (Z.of_nat _ =? 0); discriminate.
    + intros H. injection H as <-. split; [reflexivity|]. right.
      split; [reflexivity|]. exists soup, body. repeat split; assumption.
  - intros (Hs & [Hr|(-> & soup & body & Hok & Hb & Hh)]); rewrite Hs;
      cbn [negb].
    + rewrite Hr. reflexivity.
    + rewrite Hok. cbn [bind]. rewrite Hb, Hh. reflexivity.
Qed.

Lemma parse_raises_iff_witness :
  (success (mkWebsiteContent Docs.html_no_head true "") = true
   /\ Soup.find "head" Docs.no_head = None
   /\ parse_from_markup (fun markup => Ok (Docs.BeautifulSoup markup))
        (mkWebsiteContent Docs.html_no_head true "")
      = Raise AttributeError)
  /\ parse_from_markup (fun _ => Raise ParserRejectedMarkup)
       (mkWebsiteContent "<![foo[bar]]>" true "")
     = Raise ParserRejectedMarkup.
Proof.
  split; [split; [reflexivity|split; [reflexivity|]]|].
  - apply (proj2 (parse_raises_iff
                    (fun markup => Ok (Docs.BeautifulSoup markup))
                    (mkWebsiteContent Docs.html_no_head true "")
                    AttributeError)).
    split; [reflexivity|]. right. split; [reflexivity|].
    exists Docs.no_head,
      (Tag "body" [] [Tag "h1" [] [NavigableString "Hi"]]).
    repeat split.
  - apply (proj2 (parse_raises_iff
                    (fun _ => Raise ParserRejectedMarkup)
                    (mkWebsiteContent "<![foo[bar]]>" true "")
                    ParserRejectedMarkup)).
    split; [reflexivity|]. left. reflexivity.
Defined.

(** With a builder that returns, [parse_from_markup] is [parse]. *)
Lemma parse_from_markup_total (BeautifulSoup : string -> PageElement)
      (content : WebsiteContent) :
  parse_from_markup (fun markup => Ok (BeautifulSoup markup)) content
  = parse BeautifulSoup content.
Proof.
  unfold parse_from_markup, parse.
  destruct (success content); reflexivity.
Qed.

(** X9.  [parse] returns the empty sequence in one situation only: the
    fetch succeeded, the document has neither a body nor an html root, and
    its text is not empty but holds line breaks only. *)
Theorem parse_returns_empty_iff :
  forall (BeautifulSoup : string -> PageElement) (content : WebsiteContent),
    parse BeautifulSoup content = Ok []
    <-> (success content = true
         /\ Soup.find "body" (BeautifulSoup (html content)) = None
         /\ Soup.find "html" (BeautifulSoup (html content)) = None
         /\ Soup.get_text (BeautifulSoup (html content)) <> ""
         /\ only_newlines (Soup.get_text (BeautifulSoup (html content)))
            = true).
Proof.
  intros BS content. unfold parse, body_or_return.
  set (soup := BS (html content)).
  rewrite len_eqb_0, negb_involutive.
  split.
  - destruct (success content); cbn [negb]; [|discriminate].
    destruct (Soup.find "body" soup) as [b|].
    + destruct (Soup.find "head" soup) as [head|]; [|discriminate].
      rewrite length_eqb_0.
      destruct (Soup.find "title" head); [discriminate|].
      destruct (_parse b); discriminate.
    + destruct (Soup.get_text soup) as [|c r] eqn:Ht; cbn [PyStr.truthy];
        [discriminate|].
      destruct (Soup.find "html" soup) as [h|].
      * destruct (Soup.find "head" soup) as [head|]; [|discriminate].
        rewrite length_eqb_0.
        destruct (Soup.find "title" head); [discriminate|].
        destruct (_parse h); discriminate.
      * intros H. injection H as H. apply plaintext_nil in H.
        repeat split; [discriminate|exact H].
  - intros (Hs & Hb & Hh & Hne & Hnl). rewrite Hs, Hb, Hh. cbn [negb].
    destruct (Soup.get_text soup) as [|c r]; [contradiction|].
    cbn [PyStr.truthy]. apply plaintext_nil in Hnl. rewrite Hnl.
    reflexivity.
Qed.

Lemma parse_returns_empty_iff_witness :
  success (mkWebsiteContent Docs.html_newline true "") = true
  /\ only_newlines (Soup.get_text Docs.only_newline) = true
  /\ parse Docs.BeautifulSoup (mkWebsiteContent Docs.html_newline true "")
     = Ok [].
Proof.
  split; [reflexivity|]. split; [reflexivity|].
  apply (proj2 (parse_returns_empty_iff Docs.BeautifulSoup
                  (mkWebsiteContent Docs.html_newline true ""))).
  repeat split. discriminate.
Defined.

(** * Further properties of the search *)

Section SearchFacts.

Variable os_path_exists : string -> bool.
Variable os_path_isfile : string -> bool.
Variable read_file : string -> result string.
Variable urlopen : string -> fetch_outcome.

Local Abbreviation the_search :=
  (search os_path_exists os_path_isfile read_file urlopen).

(** [search], branch by branch. *)
Lemma search_unfold (query : string) :
  the_search query
  = match _is_path os_path_exists query with
    | Raise e => Raise e
    | Ok true =>
        if valid_path os_path_exists os_path_isfile query
        then text <- read_file query ;; Ok (mkWebsiteContent text true "")
        else Ok (mkWebsiteContent "" false (invalid_path_message query))
    | Ok false =>
        match urlopen (url_of query) with
        | Fetched page => Ok (mkWebsiteContent page true "")
        | FetchFailed err => Ok (mkWebsiteContent "" false err)
        | FetchRaised e => Raise e
        end
    end.
Proof.
  unfold search, _file_search, _web_search, valid_path, url_of,
    invalid_path_message.
  destruct (_is_path os_path_exists query) as [[|]|e]; cbn [bind].
  - destruct (os_path_exists query), (os_path_isfile query),
      (PyStr.endswith (PyStr.lower query) ".html"); reflexivity.
  - destruct (PyStr.contains "://" query); reflexivity.
  - reflexivity.
Qed.

Lemma _is_path_raises (query : string) (e : exn) :
  _is_path os_path_exists query = Raise e <-> query = "" /\ e = IndexError.
Proof.
  destruct query as [|c r]; cbn [_is_path]; split.
  - intros H. injection H as <-. split; reflexivity.
  - intros [_ ->]. reflexivity.
  - discriminate.
  - intros [H _]. discriminate H.
Qed.

End SearchFacts.

(** X10.  A failed acquisition surfaces as a single error element.  When
    [search] returns a content with [success] unset, its markup is empty,
    its message is the invalid-path message (query searched as a file) or
    the text of the fetch error (query searched on the web), and [parse]
    turns it into the one-element sequence holding that message. *)
Theorem failed_search_is_one_error :
  forall (os_path_exists os_path_isfile : string -> bool)
         (read_file : string -> result string)
         (urlopen : string -> fetch_outcome)
         (BeautifulSoup : string -> PageElement)
         (query : string) (content : WebsiteContent),
    search os_path_exists os_path_isfile read_file urlopen query
    = Ok content ->
    success content = false ->
    html content = ""
    /\ parse BeautifulSoup content = Ok [HTMLMarkupError (errmsg content)]
    /\ ((_is_path os_path_exists query = Ok true
         /\ errmsg content = invalid_path_message query)
        \/ (_is_path os_path_exists query = Ok false
            /\ urlopen (url_of query) = FetchFailed (errmsg content))).
Proof.
  intros ex isf rd net BS query content. rewrite search_unfold.
  destruct (_is_path ex query) as [[|]|e]; [| |discriminate].
  - destruct (valid_path ex isf query).
    + destruct (rd query); cbn [bind]; [|discriminate].
      intros H. injection H as <-. discriminate.
    + intros H _. injection H as <-. cbn. auto.
  - destruct (net (url_of query)) as [page|err|e] eqn:E; [| |discriminate].
    + intros H. injection H as <-. discriminate.
    + intros H _. injection H as <-. cbn. auto.
Qed.

Lemma failed_search_is_one_error_witness :
  Disk.search "example.org"
  = Ok (mkWebsiteContent "" false "<urlopen error offline>")
  /\ parse Docs.BeautifulSoup
       (mkWebsiteContent "" false "<urlopen error offline>")
     = Ok [HTMLMarkupError "<urlopen error offline>"].
Proof.
  split; [reflexivity|].
  apply (failed_search_is_one_error Disk.os_path_exists Disk.os_path_isfile
           Disk.read_file Disk.urlopen Docs.BeautifulSoup "example.org"
           (mkWebsiteContent "" false "<urlopen error offline>"));
    reflexivity.
Defined.

(** X11.  [search] raises exactly in three situations: the query is empty
    ([IndexError] from [string[0]]); the query is a valid path and reading
    the file raises; the query is not a path and [urlopen] raises a class
    [_web_search] does not catch. *)
Theorem search_raises_iff :
  forall (os_path_exists os_path_isfile : string -> bool)
         (read_file : string -> result string)
         (urlopen : string -> fetch_outcome)
         (query : string) (e : exn),
    search os_path_exists os_path_isfile read_file urlopen query = Raise e
    <-> ((query = "" /\ e = IndexError)
         \/ (_is_path os_path_exists query = Ok true
             /\ valid_path os_path_exists os_path_isfile query = true
             /\ read_file query = Raise e)
         \/ (_is_path os_path_exists query = Ok false
             /\ urlopen (url_of query) = FetchRaised e)).
Proof.
  intros ex isf rd net query e. rewrite search_unfold.
  destruct query as [|c r].
  - cbn [_is_path]. split.
    + intros H. injection H as <-. left. split; reflexivity.
    + intros [[_ ->]|[(H & _)|(H & _)]];
        [reflexivity|discriminate H|discriminate H].
  - remember (String c r) as query eqn:Hq.
    assert (Hne : query <> "") by (subst query; discriminate).
    assert (Hp : exists b, _is_path ex query = Ok b)
      by (subst query; eexists; reflexivity).
    destruct Hp as [b Hp]. rewrite Hp. clear Hq.
    destruct b.
    + destruct (valid_path ex isf query).
      * destruct (rd query) as [text|e'']; cbn [bind];
          intuition (try discriminate; try congruence).
      * intuition (try discriminate; try congruence).
    + destruct (net (url_of query)) as [page|err|e''];
        intuition (try discriminate; try congruence).
Qed.

Lemma search_raises_iff_witness :
  Disk.search "" = Raise IndexError.
Proof.
  apply (proj2 (search_raises_iff Disk.os_path_exists Disk.os_path_isfile
                  Disk.read_file Disk.urlopen "" IndexError)).
  left. split; reflexivity.
Defined.

(** X12.  A success content holds what the source gave: when [search]
    returns a content with [success] set, its message is empty and its
    markup is what reading the file returned (query searched as a valid
    path) or the page [urlopen] fetched (query searched on the web). *)
Theorem successful_search_provenance :
  forall (os_path_exists os_path_isfile : string -> bool)
         (read_file : string -> result string)
         (urlopen : string -> fetch_outcome)
         (query : string) (content : WebsiteContent),
    search os_path_exists os_path_isfile read_file urlopen query
    = Ok content ->
    success content = true ->
    errmsg content = ""
    /\ ((_is_path os_path_exists query = Ok true
         /\ valid_path os_path_exists os_path_isfile query = true
         /\ read_file query = Ok (html content))
        \/ (_is_path os_path_exists query = Ok false
            /\ urlopen (url_of query) = Fetched (html content))).
Proof.
  intros ex isf rd net query content. rewrite search_unfold.
  destruct (_is_path ex query) as [[|]|e]; [| |discriminate].
  - destruct (valid_path ex isf query).
    + destruct (rd query) as [text|e]; cbn [bind]; [|discriminate].
      intros H _. injection H as <-. cbn. auto.
    + intros H. injection H as <-. discriminate.
  - destruct (net (url_of query)) as [page|err|e]; [| |discriminate].
    + intros H _. injection H as <-. cbn. auto.
    + intros H. injection H as <-. discriminate.
Qed.

Lemma successful_search_provenance_witness :
  Disk.search Disk.page_html = Ok (mkWebsiteContent "<p>Hi</p>" true "")
  /\ Disk.read_file Disk.page_html = Ok "<p>Hi</p>".
Proof.
  split; [reflexivity|].
  destruct (proj2 (successful_search_provenance
                     Disk.os_path_exists Disk.os_path_isfile
                     Disk.read_file Disk.urlopen Disk.page_html
                     (mkWebsiteContent "<p>Hi</p>" true "")
                     eq_refl eq_refl))
    as [(_ & _ & H)|(H & _)].
  - exact H.
  - discriminate H.
Defined.

Lemma contains_scheme_after_prefix (query : string) :
  PyStr.contains "://" ("http://" ++ query) = true.
Proof.
  cbn. destruct query; reflexivity.
Qed.

(** X13.  A query that is not a path is fetched from a URL that always
    holds the scheme separator: the query itself when it holds one, and the
    query behind [http://] otherwise. *)
Theorem web_search_url_has_scheme :
  forall (os_path_exists os_path_isfile : string -> bool)
         (read_file : string -> result string)
         (urlopen : string -> fetch_outcome) (query : string),
    _is_path os_path_exists query = Ok false ->
    search os_path_exists os_path_isfile read_file urlopen query
    = _web_search urlopen (url_of query)
    /\ PyStr.contains "://" (url_of query) = true
    /\ (url_of query = query \/ url_of query = "http://" ++ query).
Proof.
  intros ex isf rd net query Hp. split; [|split].
  - rewrite search_unfold, Hp. reflexivity.
  - unfold url_of. destruct (PyStr.contains "://" query) eqn:E;
      [exact E|apply contains_scheme_after_prefix].
  - unfold url_of. destruct (PyStr.contains "://" query); auto.
Qed.

Lemma web_search_url_has_scheme_witness :
  _is_path Disk.os_path_exists "example.org" = Ok false
  /\ url_of "example.org" = "http://example.org"
  /\ PyStr.contains "://" (url_of "example.org") = true.
Proof.
  split; [reflexivity|]. split; [reflexivity|].
  exact (proj1 (proj2 (web_search_url_has_scheme
                         Disk.os_path_exists Disk.os_path_isfile
                         Disk.read_file Disk.urlopen "example.org"
                         eq_refl))).
Defined.

(** * Further properties of the display *)

(** ** The page window *)

Lemma slice_window {A : Type} (l : list A) (a b : Z) :
  0 <= a -> a <= b ->
  PySeq.slice l a b = firstn (Z.to_nat (b - a)) (skipn (Z.to_nat a) l).
Proof.
  intros Ha Hab. unfold PySeq.slice, PySeq.clamp.
  set (n := Z.of_nat (List.length l)).
  destruct (Z.ltb_spec a 0); [lia|]. destruct (Z.ltb_spec b 0); [lia|].
  destruct (Z.le_gt_cases a n) as [Han|Han].
  - rewrite (Z.min_l a n) by lia.
    destruct (Z.le_gt_cases b n) as [Hbn|Hbn].
    + rewrite (Z.min_l b n) by lia. reflexivity.
    + rewrite (Z.min_r b n) by lia.
      rewrite !firstn_all2; [reflexivity| |];
        rewrite length_skipn; subst n; lia.
  - rewrite (Z.min_r a n), (Z.min_r b n) by lia.
    rewrite Z.sub_diag. cbn [Z.to_nat firstn].
    rewrite (skipn_all2 l) by (subst n; lia).
    symmetry. apply firstn_nil.
Qed.

Lemma slice_length {A : Type} (l : list A) (a b : Z) :
  a <= b -> Z.of_nat (List.length (PySeq.slice l a b)) <= b - a.
Proof.
  intros Hab. unfold PySeq.slice, PySeq.clamp. cbv zeta.
  rewrite length_firstn.
  destruct (Z.ltb_spec a 0); destruct (Z.ltb_spec b 0); lia.
Qed.

(** X14.  On a window with room for the body ([max_lines] not negative),
    [draw] hands at most [max_lines] elements to [_draw], wherever the
    cursor is (also below zero). *)
Theorem page_length :
  forall (window : Type) (d : Display window) (content : list HTMLMarkup),
    0 <= _max_lines d ->
    Z.of_nat (List.length (page d content)) <= _max_lines d.
Proof.
  intros window d content Hm. unfold page.
  pose proof (slice_length (PySeq.from1 content) (_current_line d)
                (_current_line d + _max_lines d)).
  lia.
Qed.

Lemma page_length_witness :
  0 <= _max_lines (Screen.showing Screen.short_page)
  /\ Z.of_nat (List.length
                 (page (Screen.showing Screen.short_page) Screen.short_page))
     <= _max_lines (Screen.showing Screen.short_page).
Proof.
  split; [vm_compute; discriminate|].
  apply (page_length Screen.t (Screen.showing Screen.short_page)
           Screen.short_page).
  vm_compute. discriminate.
Defined.

(** X15.  With the cursor at zero or above, the page is the window of
    [max_lines] elements that starts [current_line] elements after the
    first element of the sequence. *)
Theorem page_window :
  forall (window : Type) (d : Display window) (content : list HTMLMarkup),
    0 <= _current_line d -> 0 <= _max_lines d ->
    page d content
    = firstn (Z.to_nat (_max_lines d))
             (skipn (Z.to_nat (_current_line d)) (List.tl content)).
Proof.
  intros window d content Hc Hm. unfold page, PySeq.from1.
  rewrite slice_window by lia.
  replace (_current_line d + _max_lines d - _current_line d)
    with (_max_lines d) by lia.
  reflexivity.
Qed.

Lemma page_window_witness :
  0 <= _current_line (Screen.showing Screen.short_page)
  /\ 0 <= _max_lines (Screen.showing Screen.short_page)
  /\ page (Screen.showing Screen.short_page) Screen.short_page
     = firstn (Z.to_nat (_max_lines (Screen.showing Screen.short_page)))
         (skipn (Z.to_nat (_current_line (Screen.showing Screen.short_page)))
                (List.tl Screen.short_page)).
Proof.
  split; [vm_compute; discriminate|]. split; [vm_compute; discriminate|].
  apply (page_window Screen.t (Screen.showing Screen.short_page)
           Screen.short_page); vm_compute; discriminate.
Defined.

(** ** Display.__init__ *)

(** X16.  [Display] gives up exactly on terminals under 7 lines or 30
    columns.  On every other terminal the content window has at least three
    rows, at least one of them for the body, and the page starts at the
    origin with nothing held. *)
Theorem Display_init_accepts :
  forall (window : Type) (getmaxyx : window -> Z * Z) (LINES COLS : Z)
         (win : window),
    getmaxyx win = (LINES - 3 - 1, COLS) ->
    (Display_init getmaxyx LINES COLS win = None <-> LINES < 7 \/ COLS < 30)
    /\ (forall d, Display_init getmaxyx LINES COLS win = Some d ->
                  _top d = 0 /\ _current_line d = 0
                  /\ _bottom d = LINES - 4 /\ 3 <= _bottom d
                  /\ _max_lines d = LINES - 6 /\ 1 <= _max_lines d
                  /\ _current_content d = None).
Proof.
  intros window getmaxyx LINES COLS win Hwin.
  unfold Display_init, min_dims, _reset_page_coordinates. cbn [fst snd].
  change (3 + 3 + 1) with 7.
  destruct (Z.ltb_spec LINES 7) as [HL|HL];
    destruct (Z.ltb_spec COLS 30) as [HC|HC]; cbn [orb];
    (split; [split; [intros Hn; try discriminate Hn; lia
                     |intros Hn; try reflexivity; lia]|]);
    intros d Hd; try discriminate Hd.
  injection Hd as <-. cbn. rewrite Hwin. cbn [fst]. repeat split; lia.
Qed.

Lemma Display_init_accepts_witness :
  Screen.maxyx (Screen.newwin (24 - 3 - 1) 80) = (24 - 3 - 1, 80)
  /\ _bottom Screen.fresh = 24 - 4
  /\ 1 <= _max_lines Screen.fresh.
Proof.
  split; [reflexivity|].
  destruct (proj2 (Display_init_accepts Screen.t Screen.maxyx 24 80
                     (Screen.newwin (24 - 3 - 1) 80) eq_refl)
                  Screen.fresh eq_refl)
    as (_ & _ & Hb & _ & _ & Hm & _).
  split; [exact Hb|exact Hm].
Defined.

(** ** Runs of scroll commands *)

Section ScrollRuns.

Variable window : Type.
Variable getmaxyx : window -> Z * Z.
Variable addstr :
  window -> option (Z * Z) -> string -> list string -> window * bool.
Variable focus : window -> window.
Variable wrap : string -> Z -> list string.

Local Abbreviation scroll := (_scroll getmaxyx addstr focus wrap).
Local Abbreviation run := (scrolls getmaxyx addstr focus wrap).

Lemma _scroll_max_lines (d : Display window) (direction : Z) :
  _max_lines (fst (scroll d direction)) = _max_lines d.
Proof.
  unfold _scroll.
  rewrite (proj1 (proj2 (proj2 (draw_coordinates _ _ _ _ _ _ _)))).
  unfold _scroll_coordinates.
  repeat match goal with |- context [if ?b then _ else _] => destruct b end;
    reflexivity.
Qed.

Lemma _scroll_content (d : Display window) (direction : Z) :
  _current_content (fst (scroll d direction)) = _current_content d.
Proof.
  unfold _scroll.
  rewrite (proj2 (proj2 (proj2 (proj2 (draw_coordinates _ _ _ _ _ _ _))))).
  unfold _scroll_coordinates.
  repeat match goal with |- context [if ?b then _ else _] => destruct b end;
    reflexivity.
Qed.

(** What one scroll command keeps. *)
Lemma _scroll_invariant (d : Display window) (direction : Z) :
  _current_line d < _bottom d ->
  0 <= _top d -> _top d + _max_lines d <= _bottom d ->
  _current_line (fst (scroll d direction)) < _bottom d
  /\ 0 <= _top (fst (scroll d direction))
  /\ _top (fst (scroll d direction)) + _max_lines d <= _bottom d.
Proof.
  intros Hc Ht Hm. rewrite _scroll_top, _scroll_current_line.
  scroll_cases.
Qed.

Lemma run_invariant (directions : list Z) :
  forall d : Display window,
    _current_line d < _bottom d ->
    0 <= _top d -> _top d + _max_lines d <= _bottom d ->
    _current_line (run d directions) < _bottom d
    /\ 0 <= _top (run d directions)
    /\ _top (run d directions) + _max_lines d <= _bottom d
    /\ _bottom (run d directions) = _bottom d
    /\ _max_lines (run d directions) = _max_lines d
    /\ _current_content (run d directions) = _current_content d.
Proof.
  unfold scrolls.
  induction directions as [|direction rest IH]; intros d Hc Ht Hm;
    cbn [fold_left].
  - repeat split; auto.
  - destruct (_scroll_invariant d direction Hc Ht Hm) as (Hc' & Ht' & Hm').
    pose proof (_scroll_bottom _ getmaxyx addstr focus wrap d direction)
      as Hb.
    pose proof (_scroll_max_lines d direction) as Hx.
    pose proof (_scroll_content d direction) as Hk.
    specialize (IH (fst (scroll d direction))).
    rewrite Hb, Hx, Hk in IH. apply IH; assumption.
Qed.

End ScrollRuns.

(** X17.  After a new search and any run of scroll commands, on a window
    with at least one row: the cursor stays under the window's row count,
    [top] stays between 0 and 2, and the row count, [max_lines] and the
    held content are what they were. *)
Theorem scroll_run_bounds :
  forall (window : Type) (getmaxyx : window -> Z * Z)
         (addstr : window -> option (Z * Z) -> string -> list string
                   -> window * bool)
         (focus : window -> window) (wrap : string -> Z -> list string)
         (d : Display window) (directions : list Z),
    0 < fst (getmaxyx (content_win d)) ->
    _current_line (scrolls getmaxyx addstr focus wrap
                     (_reset_page_coordinates getmaxyx d) directions)
    < fst (getmaxyx (content_win d))
    /\ 0 <= _top (scrolls getmaxyx addstr focus wrap
                    (_reset_page_coordinates getmaxyx d) directions) <= 2
    /\ _bottom (scrolls getmaxyx addstr focus wrap
                  (_reset_page_coordinates getmaxyx d) directions)
       = fst (getmaxyx (content_win d))
    /\ _max_lines (scrolls getmaxyx addstr focus wrap
                     (_reset_page_coordinates getmaxyx d) directions)
       = fst (getmaxyx (content_win d)) - 2
    /\ _current_content (scrolls getmaxyx addstr focus wrap
                           (_reset_page_coordinates getmaxyx d) directions)
       = _current_content d.
Proof.
  intros window getmaxyx addstr focus wrap d directions Hb.
  destruct (run_invariant window getmaxyx addstr focus wrap directions
              (_reset_page_coordinates getmaxyx d))
    as (Hc & Ht & Hm & Hbo & Hx & Hk); cbn; try lia.
  cbn in Hc, Hm, Hbo, Hx, Hk. repeat split; try assumption; lia.
Qed.

Lemma scroll_run_bounds_witness :
  0 < fst (Screen.maxyx (content_win Screen.fresh))
  /\ 0 <= _top (scrolls Screen.maxyx Screen.addstr Screen.focus Screen.wrap
                  (_reset_page_coordinates Screen.maxyx Screen.fresh)
                  [DOWN; DOWN; UP]) <= 2.
Proof.
  split; [reflexivity|].
  exact (proj1 (proj2 (scroll_run_bounds Screen.t Screen.maxyx Screen.addstr
                         Screen.focus Screen.wrap Screen.fresh
                         [DOWN; DOWN; UP] eq_refl))).
Defined.

(** X18.  A scroll command moves one line at most: after [_scroll] with
    [UP] or [DOWN], [top] and [current_line] differ from before by one
    unit in total or not at all, and the row count, [max_lines] and the
    held content are unchanged. *)
Theorem scroll_moves_one_line :
  forall (window : Type) (getmaxyx : window -> Z * Z)
         (addstr : window -> option (Z * Z) -> string -> list string
                   -> window * bool)
         (focus : window -> window) (wrap : string -> Z -> list string)
         (d : Display window) (direction : Z),
    direction = UP \/ direction = DOWN ->
    Z.abs (_top (fst (_scroll getmaxyx addstr focus wrap d direction))
           - _top d)
    + Z.abs (_current_line
               (fst (_scroll getmaxyx addstr focus wrap d direction))
             - _current_line d) <= 1
    /\ _bottom (fst (_scroll getmaxyx addstr focus wrap d direction))
       = _bottom d
    /\ _max_lines (fst (_scroll getmaxyx addstr focus wrap d direction))
       = _max_lines d
    /\ _current_content (fst (_scroll getmaxyx addstr focus wrap d direction))
       = _current_content d.
Proof.
  intros window getmaxyx addstr focus wrap d direction Hd.
  rewrite _scroll_top, _scroll_current_line, _scroll_bottom,
    _scroll_max_lines, _scroll_content.
  repeat split. destruct Hd; subst direction; scroll_cases.
Qed.

Lemma scroll_moves_one_line_witness :
  (DOWN = UP \/ DOWN = DOWN)
  /\ Z.abs (_top (fst (Screen._scroll (Screen.showing Screen.short_page)
                         DOWN))
            - _top (Screen.showing Screen.short_page))
     + Z.abs (_current_line
                (fst (Screen._scroll (Screen.showing Screen.short_page)
                        DOWN))
              - _current_line (Screen.showing Screen.short_page)) <= 1.
Proof.
  split; [right; reflexivity|].
  exact (proj1 (scroll_moves_one_line Screen.t Screen.maxyx Screen.addstr
                  Screen.focus Screen.wrap
                  (Screen.showing Screen.short_page) DOWN
                  (or_intror eq_refl))).
Defined.

(** X19.  From a position under the bottom bound ([current_line] and
    [top + current_line] both below it), scrolling up and then down
    restores [top] and [current_line]. *)
Theorem scroll_up_then_down :
  forall (window : Type) (getmaxyx : window -> Z * Z)
         (addstr : window -> option (Z * Z) -> string -> list string
                   -> window * bool)
         (focus : window -> window) (wrap : string -> Z -> list string)
         (d : Display window),
    _current_line d < _bottom d ->
    _top d + _current_line d < _bottom d ->
    _top (scrolls getmaxyx addstr focus wrap d [UP; DOWN]) = _top d
    /\ _current_line (scrolls getmaxyx addstr focus wrap d [UP; DOWN])
       = _current_line d.
Proof.
  intros window getmaxyx addstr focus wrap d H1 H2.
  unfold scrolls. cbn [fold_left].
  set (d1 := fst (_scroll getmaxyx addstr focus wrap d UP)).
  assert (Ht : _top d1 = _top d)
    by (subst d1; rewrite _scroll_top; scroll_cases).
  assert (Hc : _current_line d1 = _current_line d - 1)
    by (subst d1; rewrite _scroll_current_line; scroll_cases).
  assert (Hb : _bottom d1 = _bottom d) by apply _scroll_bottom.
  rewrite _scroll_top, _scroll_current_line.
  unfold UP in *. scroll_cases.
Qed.

Lemma scroll_up_then_down_witness :
  _current_line (Screen.showing Screen.short_page)
  < _bottom (Screen.showing Screen.short_page)
  /\ _current_line
       (scrolls Screen.maxyx Screen.addstr Screen.focus Screen.wrap
          (Screen.showing Screen.short_page) [UP; DOWN])
     = _current_line (Screen.showing Screen.short_page).
Proof.
  split; [reflexivity|].
  exact (proj2 (scroll_up_then_down Screen.t Screen.maxyx Screen.addstr
                  Screen.focus Screen.wrap
                  (Screen.showing Screen.short_page) eq_refl eq_refl)).
Defined.

Lemma scrolls_snoc (window : Type) (getmaxyx : window -> Z * Z)
      (addstr : window -> option (Z * Z) -> string -> list string
                -> window * bool)
      (focus : window -> window) (wrap : string -> Z -> list string)
      (d : Display window) (directions : list Z) (direction : Z) :
  scrolls getmaxyx addstr focus wrap d (directions ++ [direction])
  = fst (_scroll getmaxyx addstr focus wrap
           (scrolls getmaxyx addstr focus wrap d directions) direction).
Proof. unfold scrolls. rewrite fold_left_app. reflexivity. Qed.

(** X20.  Scrolling down [k] times after a new search, on a window of
    [b >= 1] rows: the cursor advances one line per command until it sits
    on row [b - 1], then [top] advances until it is 2, then nothing
    changes any more.  The length of the content plays no part. *)
Theorem scroll_down_saturates :
  forall (window : Type) (getmaxyx : window -> Z * Z)
         (addstr : window -> option (Z * Z) -> string -> list string
                   -> window * bool)
         (focus : window -> window) (wrap : string -> Z -> list string)
         (d : Display window) (k : nat),
    0 < fst (getmaxyx (content_win d)) ->
    _current_line (scrolls getmaxyx addstr focus wrap
                     (_reset_page_coordinates getmaxyx d) (repeat DOWN k))
    = Z.min (Z.of_nat k) (fst (getmaxyx (content_win d)) - 1)
    /\ _top (scrolls getmaxyx addstr focus wrap
               (_reset_page_coordinates getmaxyx d) (repeat DOWN k))
       = Z.min (Z.max 0 (Z.of_nat k - (fst (getmaxyx (content_win d)) - 1)))
               2.
Proof.
  intros window getmaxyx addstr focus wrap d k Hb.
  set (b := fst (getmaxyx (content_win d))) in *.
  set (d0 := _reset_page_coordinates getmaxyx d).
  assert (Hframe : forall n,
             _bottom (scrolls getmaxyx addstr focus wrap d0 (repeat DOWN n))
             = b
             /\ _max_lines
                  (scrolls getmaxyx addstr focus wrap d0 (repeat DOWN n))
                = b - 2).
  { intros n.
    destruct (run_invariant window getmaxyx addstr focus wrap
                (repeat DOWN n) d0) as (_ & _ & _ & H1 & H2 & _);
      subst d0 b; cbn; try lia.
    cbn in H1, H2. split; assumption. }
  induction k as [|k [IHc IHt]].
  - subst d0 b. cbn. lia.
  - destruct (Hframe k) as [Hbo Hmx].
    change (repeat DOWN (S k)) with (DOWN :: repeat DOWN k).
    rewrite repeat_cons, scrolls_snoc.
    rewrite _scroll_top, _scroll_current_line.
    set (dk := scrolls getmaxyx addstr focus wrap d0 (repeat DOWN k)) in *.
    rewrite Nat2Z.inj_succ.
    unfold _scroll_coordinates, DOWN.
    rewrite Hbo, Hmx, IHc, IHt.
    destruct (Z.ltb_spec (Z.min (Z.of_nat k) (b - 1) + 1) b);
      destruct (Z.ltb_spec
                  (Z.min (Z.max 0 (Z.of_nat k - (b - 1))) 2
                   + (Z.min (Z.of_nat k) (b - 1) + 1)) b);
      destruct (Z.eqb_spec (Z.min (Z.of_nat k) (b - 1) + 1) b);
      destruct (Z.ltb_spec
                  (Z.min (Z.max 0 (Z.of_nat k - (b - 1))) 2 + (b - 2)) b);
      cbn [andb]; cbn; rewrite ?IHc, ?IHt; lia.
Qed.

Lemma scroll_down_saturates_witness :
  0 < fst (Screen.maxyx (content_win Screen.fresh))
  /\ _current_line
       (scrolls Screen.maxyx Screen.addstr Screen.focus Screen.wrap
          (_reset_page_coordinates Screen.maxyx Screen.fresh)
          (repeat DOWN 25))
     = Z.min (Z.of_nat 25)
             (fst (Screen.maxyx (content_win Screen.fresh)) - 1).
Proof.
  split; [reflexivity|].
  exact (proj1 (scroll_down_saturates Screen.t Screen.maxyx Screen.addstr
                  Screen.focus Screen.wrap Screen.fresh 25 eq_refl)).
Defined.

(** ** The row cursor of [_draw] *)

Section DrawFacts.

Variable window : Type.
Variable getmaxyx : window -> Z * Z.
Variable addstr :
  window -> option (Z * Z) -> string -> list string -> window * bool.
Variable wrap : string -> Z -> list string.

Local Abbreviation draw_lines := (_draw_lines window addstr).
Local Abbreviation draw1 := (_draw window getmaxyx addstr wrap).
Local Abbreviation draw_page := (_draw_page window getmaxyx addstr wrap).

Lemma _draw_lines_rows (max_lines : Z) (lines : list string) :
  forall (row : Z) (color : string) (win win' : window) (r' : Z),
    draw_lines max_lines lines (Some row) color win = (win', Ok (Some r')) ->
    row <= r' <= Z.max row max_lines
    /\ r' - row <= Z.of_nat (List.length lines).
Proof.
  induction lines as [|line rest IH]; intros row color win win' r' H.
  - cbn in H. injection H as _ <-. cbn [List.length]. lia.
  - cbn [_draw_lines] in H. unfold wbind, int_of, ret, win_addstr in H.
    destruct (row >=? max_lines) eqn:E.
    + injection H as _ <-. cbn [List.length]. lia.
    + destruct (addstr win (Some (row, 1)) line [color]) as [w ok].
      destruct ok; [|discriminate H].
      apply IH in H. rewrite Z.geb_leb in E. apply Z.leb_gt in E.
      cbn [List.length]. lia.
Qed.

Lemma _draw_row_moves_down (d : Display window) (element : HTMLMarkup) :
  forall (isLink : bool) (row : Z) (win win' : window) (r' : Z),
    draw1 d (Some row) element isLink win = (win', Ok (Some r')) ->
    row <= r'.
Proof.
  induction element
    as [href text|href text nested IH|src alt|t e u|msg|t]
    using HTMLMarkup_deep_ind; intros isLink row win win' r' H;
    cbn [_draw] in H;
    unfold wbind, str_of, int_of, ret, throw, win_addstr in H.
  - destruct (match text with Some t => Some t | None => href end);
      [|discriminate H].
    destruct (addstr win _ _ _) as [w ok]; destruct ok; [|discriminate H].
    injection H as _ <-. lia.
  - destruct (match text with Some t => Some t | None => href end);
      [|discriminate H].
    destruct (addstr win _ _ _) as [w ok]; destruct ok; [|discriminate H].
    assert (Hloop : row + 1 <= r'); [|lia].
    revert H. generalize (row + 1) as r0. generalize w as w0. clear w.
    induction IH as [|m rest Hm _ IHrest]; intros w0 r0 H.
    + injection H as _ <-. lia.
    + destruct (draw1 d (Some r0) m true w0) as [w1 [[r1|]|ex]] eqn:E;
        try discriminate H.
      apply Hm in E. apply IHrest in H. lia.
  - destruct (addstr win _ _ _) as [w ok]; destruct ok; [|discriminate H].
    destruct (match alt with Some a => Some a | None => src end);
      [|discriminate H].
    destruct (addstr w _ _ _) as [w2 ok]; destruct ok; [|discriminate H].
    injection H as _ <-. lia.
  - destruct (String.eqb t PyStr.newline).
    + injection H as _ <-. lia.
    + apply _draw_lines_rows in H. lia.
  - discriminate H.
  - discriminate H.
Qed.

End DrawFacts.

(** X21.  The row cursor never moves up: when [_draw] returns a row, it is
    at or below the row it was given.  An image takes one row, and a link
    takes one row plus at least one for each nested object. *)
Theorem _draw_never_moves_up :
  forall (window : Type) (getmaxyx : window -> Z * Z)
         (addstr : window -> option (Z * Z) -> string -> list string
                   -> window * bool)
         (wrap : string -> Z -> list string)
         (d : Display window) (element : HTMLMarkup) (isLink : bool)
         (row : Z) (win win' : window) (r' : Z),
    _draw window getmaxyx addstr wrap d (Some row) element isLink win
    = (win', Ok (Some r')) ->
    row <= r'
    /\ (forall src alt, element = HTMLMarkupImage src alt -> r' = row + 1)
    /\ (forall href text, element = HTMLMarkupLink href text None ->
                          r' = row + 1)
    /\ (forall href text nested,
           element = HTMLMarkupLink href text (Some nested) ->
           row + 1 + Z.of_nat (List.length nested) <= r').
Proof.
  intros window getmaxyx addstr wrap d element isLink row win win' r' H.
  split; [exact (_draw_row_moves_down _ _ _ _ d element _ _ _ _ _ H)|].
  repeat split.
  - intros src alt ->. cbn [_draw] in H.
    unfold wbind, str_of, int_of, ret, throw, win_addstr in H.
    destruct (addstr win _ _ _) as [w ok]; destruct ok; [|discriminate H].
    destruct (match alt with Some a => Some a | None => src end);
      [|discriminate H].
    destruct (addstr w _ _ _) as [w2 ok]; destruct ok; [|discriminate H].
    injection H as _ <-. reflexivity.
  - intros href text ->. cbn [_draw] in H.
    unfold wbind, str_of, int_of, ret, throw, win_addstr in H.
    destruct (match text with Some t => Some t | None => href end);
      [|discriminate H].
    destruct (addstr win _ _ _) as [w ok]; destruct ok; [|discriminate H].
    injection H as _ <-. reflexivity.
  - intros href text nested ->. cbn [_draw] in H.
    unfold wbind, str_of, int_of, ret, throw, win_addstr in H.
    destruct (match text with Some t => Some t | None => href end);
      [|discriminate H].
    destruct (addstr win _ _ _) as [w ok]; destruct ok; [|discriminate H].
    revert H. generalize (row + 1) as r0. generalize w as w0. clear w.
    induction nested as [|m rest IH]; intros w0 r0 H.
    + injection H as _ <-. cbn [List.length]. lia.
    + destruct (_draw window getmaxyx addstr wrap d (Some r0) m true w0)
        as [w1 [[r1|]|ex]] eqn:E; try discriminate H.
      apply _draw_row_moves_down in E. apply IH in H.
      cbn [List.length]. lia.
Qed.

Lemma _draw_never_moves_up_witness :
  _draw Screen.t Screen.maxyx Screen.addstr Screen.wrap Screen.fresh
        (Some 1)
        (HTMLMarkupLink (Some "/x") None
           (Some [HTMLMarkupText "bold" false false;
                  HTMLMarkupImage (Some "a.png") None]))
        false (Screen.newwin 20 80)
  = (fst (_draw Screen.t Screen.maxyx Screen.addstr Screen.wrap Screen.fresh
                (Some 1)
                (HTMLMarkupLink (Some "/x") None
                   (Some [HTMLMarkupText "bold" false false;
                          HTMLMarkupImage (Some "a.png") None]))
                false (Screen.newwin 20 80)),
     Ok (Some 6))
  /\ 1 <= 6.
Proof.
  split; [reflexivity|].
  refine (proj1 (_draw_never_moves_up Screen.t Screen.maxyx Screen.addstr
                   Screen.wrap Screen.fresh
                   (HTMLMarkupLink (Some "/x") None
                      (Some [HTMLMarkupText "bold" false false;
                             HTMLMarkupImage (Some "a.png") None]))
                   false 1 (Screen.newwin 20 80)
                   (fst (_draw Screen.t Screen.maxyx Screen.addstr
                           Screen.wrap Screen.fresh (Some 1)
                           (HTMLMarkupLink (Some "/x") None
                              (Some [HTMLMarkupText "bold" false false;
                                     HTMLMarkupImage (Some "a.png") None]))
                           false (Screen.newwin 20 80)))
                   6 _)).
  reflexivity.
Defined.

(** X22.  A wrapped text stays in the body rows: drawing a text element
    other than the line break advances the cursor by at most the number of
    wrapped lines and never past [max_lines] (or past where it started,
    when that is already beyond). *)
Theorem _draw_text_stays_in_body :
  forall (window : Type) (getmaxyx : window -> Z * Z)
         (addstr : window -> option (Z * Z) -> string -> list string
                   -> window * bool)
         (wrap : string -> Z -> list string)
         (d : Display window) (t : string) (e u isLink : bool)
         (row : Z) (win win' : window) (r' : Z),
    t <> PyStr.newline ->
    _draw window getmaxyx addstr wrap d (Some row)
          (HTMLMarkupText t e u) isLink win
    = (win', Ok (Some r')) ->
    row <= r' <= Z.max row (_max_lines d)
    /\ r' - row
       <= Z.of_nat (List.length
                      (wrap t (snd (getmaxyx (content_win d)) - 2))).
Proof.
  intros window getmaxyx addstr wrap d t e u isLink row win win' r' Hn H.
  cbn [_draw] in H.
  destruct (String.eqb_spec t PyStr.newline) as [Heq|_];
    [contradiction|].
  exact (_draw_lines_rows _ _ _ _ _ _ _ _ _ H).
Qed.

Lemma _draw_text_stays_in_body_witness :
  "Hi" <> PyStr.newline
  /\ 1 <= 2 <= Z.max 1 (_max_lines Screen.fresh).
Proof.
  split; [discriminate|].
  exact (proj1 (_draw_text_stays_in_body Screen.t Screen.maxyx Screen.addstr
                  Screen.wrap Screen.fresh "Hi" false false false 1
                  (Screen.newwin 20 80)
                  (fst (_draw Screen.t Screen.maxyx Screen.addstr Screen.wrap
                          Screen.fresh (Some 1)
                          (HTMLMarkupText "Hi" false false) false
                          (Screen.newwin 20 80)))
                  2 ltac:(discriminate) eq_refl)).
Defined.

(** X23.  A [curses.error] raised while an element of the page is drawn
    never leaves the page loop of [draw]: whatever the window does, the
    loop returns or raises something else. *)
Theorem _draw_page_swallows_curses_errors :
  forall (window : Type) (getmaxyx : window -> Z * Z)
         (addstr : window -> option (Z * Z) -> string -> list string
                   -> window * bool)
         (wrap : string -> Z -> list string)
         (d : Display window) (elements : list HTMLMarkup)
         (row : option Z) (win : window),
    snd (_draw_page window getmaxyx addstr wrap d row elements win)
    <> Raise CursesError.
Proof.
  intros window getmaxyx addstr wrap d elements.
  induction elements as [|element rest IH]; intros row win;
    cbn [_draw_page].
  - discriminate.
  - destruct (_draw window getmaxyx addstr wrap d row element false win)
      as [win' [row'|ex]].
    + apply IH.
    + destruct ex; try (cbn [snd]; discriminate). apply IH.
Qed.

(** X24.  An anchor without [href] whose first child is a tag cannot be
    drawn: the link [_parse] makes of it has neither text nor address, and
    a page that starts with it makes the page loop raise [TypeError]
    before anything is written. *)
Theorem anchor_without_href_breaks_draw :
  forall (window : Type) (getmaxyx : window -> Z * Z)
         (addstr : window -> option (Z * Z) -> string -> list string
                   -> window * bool)
         (wrap : string -> Z -> list string)
         (d : Display window) (attrs : list (string * string))
         (n : string) (a : list (string * string))
         (cs rest : list PageElement) (more : list HTMLMarkup)
         (row : option Z) (win : window),
    Soup.get attrs "href" = None ->
    _draw_page window getmaxyx addstr wrap d row
      (_parse (Tag "a" attrs (Tag n a cs :: rest)) ++ more) win
    = (win, Raise TypeError).
Proof.
  intros window getmaxyx addstr wrap d attrs n a cs rest more row win Hh.
  change (_parse (Tag "a" attrs (Tag n a cs :: rest)))
    with [HTMLMarkupLink (Soup.get attrs "href") None
            (Some (flat_map _parse (Tag n a cs :: rest)))].
  rewrite Hh. reflexivity.
Qed.

Lemma anchor_without_href_breaks_draw_witness :
  Soup.get [("class", "logo")] "href" = None
  /\ _draw_page Screen.t Screen.maxyx Screen.addstr Screen.wrap Screen.fresh
       (Some 1)
       (_parse (Tag "a" [("class", "logo")]
                  [Tag "img" [("src", "logo.png")] []]) ++ [])
       (Screen.newwin 20 80)
     = (Screen.newwin 20 80, Raise TypeError).
Proof.
  split; [reflexivity|].
  apply (anchor_without_href_breaks_draw Screen.t Screen.maxyx Screen.addstr
           Screen.wrap Screen.fresh [("class", "logo")] "img"
           [("src", "logo.png")] [] [] [] (Some 1) (Screen.newwin 20 80)).
  reflexivity.
Defined.

(** * Properties of the command loop *)

Section CommandFacts.

Variable window : Type.
Variable getmaxyx : window -> Z * Z.
Variable addstr :
  window -> option (Z * Z) -> string -> list string -> window * bool.
Variable focus : window -> window.
Variable wrap : string -> Z -> list string.
Variable unfocus : window -> window.
Variable BeautifulSoup : string -> PageElement.
Variable os_path_exists : string -> bool.
Variable os_path_isfile : string -> bool.
Variable read_file : string -> result string.
Variable urlopen : string -> fetch_outcome.

Local Abbreviation await :=
  (await_command getmaxyx addstr focus wrap unfocus).
Local Abbreviation scroll := (_scroll getmaxyx addstr focus wrap).
Local Abbreviation the_process :=
  (process window getmaxyx addstr focus wrap unfocus BeautifulSoup
           os_path_exists os_path_isfile read_file urlopen).
Local Abbreviation the_loop :=
  (main_loop window getmaxyx addstr focus wrap unfocus BeautifulSoup
             os_path_exists os_path_isfile read_file urlopen).

(** [await_command], one key at a time. *)
Lemma await_command_step (key : Z) (rest : list Z) (d : Display window) :
  await (key :: rest) d
  = if negb (is_command key) then await rest d
    else if key =? ord_q then Ok (Some (true, d, rest))
    else if key =? ord_s
         then Ok (Some (false, _focus_search_win unfocus d, rest))
    else if key =? ord_d then Ok (Some (false, d, rest))
    else if (key =? KEY_DOWN) || (key =? KEY_UP) then
      _ <- snd (scroll d (if key =? KEY_DOWN then DOWN else UP)) ;;
      inner <- await rest
                 (fst (scroll d (if key =? KEY_DOWN then DOWN else UP))) ;;
      match inner with
      | None => Ok None
      | Some (_, d'', rest') => Ok (Some (false, d'', rest'))
      end
    else Ok (Some (false, d, rest)).
Proof.
  cbn [await_command].
  destruct (negb (is_command key)); [reflexivity|].
  destruct (key =? ord_q); [reflexivity|].
  destruct (key =? ord_s); [reflexivity|].
  destruct (key =? ord_d); [reflexivity|].
  destruct (key =? KEY_DOWN); cbn [orb].
  - destruct (scroll d DOWN) as [d1 r]. reflexivity.
  - destruct (key =? KEY_UP); [|reflexivity].
    destruct (scroll d UP) as [d1 r]. reflexivity.
Qed.

(** Returning [finished] set takes a [q] as the first command, and leaves
    the display as it was. *)
Lemma await_command_true (keys : list Z) :
  forall (d d' : Display window) (rest : list Z),
    await keys d = Ok (Some (true, d', rest)) ->
    List.find is_command keys = Some ord_q /\ d' = d.
Proof.
  induction keys as [|key later IH]; intros d d' rest H.
  - discriminate H.
  - rewrite await_command_step in H. cbn [List.find].
    destruct (is_command key); cbn [negb] in H; [|exact (IH _ _ _ H)].
    destruct (Z.eqb_spec key ord_q) as [->|_].
    { injection H as <- _. split; reflexivity. }
    destruct (key =? ord_s); [discriminate H|].
    destruct (key =? ord_d); [discriminate H|].
    destruct ((key =? KEY_DOWN) || (key =? KEY_UP)); [|discriminate H].
    destruct (snd (scroll d _)); cbn [bind] in H; [|discriminate H].
    destruct (await later _) as [[[[fin d2] rest2]|]|ex]; cbn [bind] in H;
      discriminate H.
Qed.

Lemma await_command_quits (keys : list Z) :
  forall d : Display window,
    List.find is_command keys = Some ord_q ->
    exists rest, await keys d = Ok (Some (true, d, rest)).
Proof.
  induction keys as [|key later IH]; intros d H.
  - discriminate H.
  - rewrite await_command_step. cbn [List.find] in H.
    destruct (is_command key); cbn [negb]; [|exact (IH d H)].
    injection H as ->. exists later. reflexivity.
Qed.

(** X26.  What the command loop keeps: when [await_command] returns,
    [top] has not decreased, the row count, [max_lines] and the held
    content are unchanged, a cursor that was under the row count still is,
    and the keys left are a tail of the keys given. *)
Lemma await_command_frame (keys : list Z) :
  forall (d d' : Display window) (fin : bool) (rest : list Z),
    await keys d = Ok (Some (fin, d', rest)) ->
    _top d <= _top d'
    /\ _bottom d' = _bottom d
    /\ _max_lines d' = _max_lines d
    /\ _current_content d' = _current_content d
    /\ (_current_line d < _bottom d -> _current_line d' < _bottom d')
    /\ exists read, keys = (read ++ rest)%list.
Proof.
  induction keys as [|key later IH]; intros d d' fin rest H.
  - discriminate H.
  - rewrite await_command_step in H.
    assert (Hhere : forall x : Display window,
               _top x = _top d -> _bottom x = _bottom d ->
               _max_lines x = _max_lines d ->
               _current_content x = _current_content d ->
               _current_line x = _current_line d ->
               _top d <= _top x /\ _bottom x = _bottom d
               /\ _max_lines x = _max_lines d
               /\ _current_content x = _current_content d
               /\ (_current_line d < _bottom d ->
                   _current_line x < _bottom x)
               /\ exists read, key :: later = (read ++ later)%list).
    { intros x H1 H2 H3 H4 H5. repeat split; try lia; try assumption.
      exists [key]. reflexivity. }
    destruct (is_command key); cbn [negb] in H.
    2:{ destruct (IH _ _ _ _ H) as (? & ? & ? & ? & ? & read & ->).
        repeat split; try assumption. exists (key :: read). reflexivity. }
    destruct (key =? ord_q).
    { injection H as _ <- <-. apply Hhere; reflexivity. }
    destruct (key =? ord_s).
    { injection H as _ <- <-. apply Hhere; reflexivity. }
    destruct (key =? ord_d).
    { injection H as _ <- <-. apply Hhere; reflexivity. }
    destruct ((key =? KEY_DOWN) || (key =? KEY_UP)).
    2:{ injection H as _ <- <-. apply Hhere; reflexivity. }
    set (direction := if key =? KEY_DOWN then DOWN else UP) in *.
    destruct (snd (scroll d direction)); cbn [bind] in H; [|discriminate H].
    destruct (await later (fst (scroll d direction)))
      as [[[[fin2 d2] rest2]|]|ex] eqn:E; cbn [bind] in H;
      try discriminate H.
    injection H as _ <- <-.
    destruct (IH _ _ _ _ E) as (Ht & Hb & Hm & Hk & Hc & read & ->).
    rewrite _scroll_bottom in Hb, Hc.
    rewrite _scroll_max_lines in Hm. rewrite _scroll_content in Hk.
    assert (Hstep : _top d <= _top (fst (scroll d direction)))
      by (rewrite _scroll_top; scroll_cases).
    repeat split; try assumption; try lia.
    + intros Hlt. apply Hc.
      pose proof (_scroll_keeps_upper_bound _ getmaxyx addstr focus wrap
                    d direction Hlt) as Hu.
      rewrite _scroll_bottom in Hu. exact Hu.
    + exists (key :: read). reflexivity.
Qed.

(** X27.  The loop of [main] ends on a page at its origin: [finished] is
    only set by a [q] that is the first command after a search, so when the
    loop stops, [top] and [current_line] are 0 (after any scrolling, [q]
    leads back to the search box instead). *)
Lemma main_loop_ends_at_origin (typed : list string) :
  forall (keys : list Z) (d d' : Display window),
    the_loop typed keys d = Ok (Some d') ->
    _top d' = 0 /\ _current_line d' = 0.
Proof.
  induction typed as [|text later IH]; intros keys d d' H.
  - discriminate H.
  - cbn [main_loop] in H.
    destruct (String.eqb (PyStr.strip text) ""); [exact (IH _ _ _ H)|].
    unfold process in H.
    destruct (search _ _ _ _ _) as [content|ex]; cbn [bind] in H;
      [|discriminate H].
    destruct (parse _ content) as [parsed|ex]; cbn [bind] in H;
      [|discriminate H].
    pose proof (draw_coordinates _ getmaxyx addstr focus wrap
                  (get_search_query window getmaxyx d) (Some parsed))
      as (Ht & _ & _ & Hc & _).
    destruct (draw getmaxyx addstr focus wrap _ (Some parsed)) as [d1 r].
    cbn [fst] in Ht, Hc.
    destruct r; cbn [bind] in H; [|discriminate H].
    destruct (await keys d1) as [[[[fin d2] keys2]|]|ex] eqn:E;
      cbn [bind] in H; try discriminate H.
    destruct fin.
    + injection H as <-.
      destruct (await_command_true _ _ _ _ E) as [_ ->].
      rewrite Ht, Hc. split; reflexivity.
    + exact (IH _ _ _ H).
Qed.

End CommandFacts.

(** X25.  [await_command] returns [finished] set exactly when the first
    command key is [q] (keys that are no commands are skipped): it then
    returns at once with the display untouched; after a scroll, or on [s],
    what it returns has [finished] unset, whatever keys follow. *)
Theorem await_command_finished :
  forall (window : Type) (getmaxyx : window -> Z * Z)
         (addstr : window -> option (Z * Z) -> string -> list string
                   -> window * bool)
         (focus : window -> window) (wrap : string -> Z -> list string)
         (unfocus : window -> window)
         (keys : list Z) (d : Display window),
    (List.find is_command keys = Some ord_q ->
     exists rest,
       await_command getmaxyx addstr focus wrap unfocus keys d
       = Ok (Some (true, d, rest)))
    /\ (forall d' rest,
           await_command getmaxyx addstr focus wrap unfocus keys d
           = Ok (Some (true, d', rest)) ->
           List.find is_command keys = Some ord_q /\ d' = d).
Proof.
  intros window getmaxyx addstr focus wrap unfocus keys d. split.
  - apply await_command_quits.
  - apply await_command_true.
Qed.

Lemma await_command_finished_witness :
  List.find is_command [120; ord_q; KEY_DOWN] = Some ord_q
  /\ exists rest,
       Session.await_command [120; ord_q; KEY_DOWN]
         (Screen.showing Screen.short_page)
       = Ok (Some (true, Screen.showing Screen.short_page, rest)).
Proof.
  split; [reflexivity|].
  apply (proj1 (await_command_finished Screen.t Screen.maxyx Screen.addstr
                  Screen.focus Screen.wrap Session.unfocus
                  [120; ord_q; KEY_DOWN]
                  (Screen.showing Screen.short_page))).
  reflexivity.
Defined.

(** After a scroll, [q] does not end the session. *)
Example quit_after_scroll :
  exists d,
    Session.await_command [KEY_DOWN; ord_q]
      (Screen.showing Screen.short_page)
    = Ok (Some (false, d, [])).
Proof. eexists. reflexivity. Qed.

Lemma await_command_frame_witness :
  Session.await_command [KEY_DOWN; 120; ord_s; ord_q]
    (Screen.showing Screen.short_page)
  = Ok (Some (false,
              _focus_search_win Session.unfocus
                (fst (Screen._scroll (Screen.showing Screen.short_page)
                        DOWN)),
              [ord_q]))
  /\ _top (Screen.showing Screen.short_page)
     <= _top (_focus_search_win Session.unfocus
                (fst (Screen._scroll (Screen.showing Screen.short_page)
                        DOWN))).
Proof.
  split; [reflexivity|].
  exact (proj1 (await_command_frame Screen.t Screen.maxyx Screen.addstr
                  Screen.focus Screen.wrap Session.unfocus
                  [KEY_DOWN; 120; ord_s; ord_q]
                  (Screen.showing Screen.short_page)
                  (_focus_search_win Session.unfocus
                     (fst (Screen._scroll (Screen.showing Screen.short_page)
                             DOWN)))
                  false [ord_q] eq_refl)).
Defined.

Lemma main_loop_ends_at_origin_witness :
  Session.main_loop ["  "; Disk.page_html] [ord_q] Screen.fresh
  = Ok (Some (Screen.showing Screen.untitled_page))
  /\ _top (Screen.showing Screen.untitled_page) = 0
  /\ _current_line (Screen.showing Screen.untitled_page) = 0.
Proof.
  split; [reflexivity|].
  exact (main_loop_ends_at_origin Screen.t Screen.maxyx Screen.addstr
           Screen.focus Screen.wrap Session.unfocus Session.BeautifulSoup
           Disk.os_path_exists Disk.os_path_isfile Disk.read_file
           Disk.urlopen ["  "; Disk.page_html] [ord_q] Screen.fresh
           (Screen.showing Screen.untitled_page) eq_refl).
Defined.
